(** * Workflow orchestrator: state, agents and control loop

    A shallow embedding of [workflow_orchestrator.py].  Python text is a
    sequence of Unicode code points, dictionaries of type [Dict[str, Any]]
    are finite maps from keys to dynamically typed values, floats are
    IEEE 754 binary64 numbers, and the effects of a run (calls to the
    generation client, to the event callback, clock reads, pauses and
    writes to the workflow state) are threaded explicitly through a state
    and exception monad that also records them in a trace. *)

From Stdlib Require Import ZArith NArith String Ascii List Floats Lia.
From stdpp Require Import base option list gmap strings pretty.
Set Warnings "-inexact-float,-register-all".

(** ** Python data *)

Module Py.

(** A [str] is a sequence of code points; [len] counts code points. *)
Abbreviation str := (list N).

(** An ASCII literal as a [str]. *)
Definition txt (s : string) : str :=
  (fun a => N_of_ascii a) <$> list_ascii_of_string s.

Definition quote : N := 34%N.
Definition newline : N := 10%N.

(** The values stored in the dictionaries of this program. *)
Inductive value : Type :=
| VNone
| VBool (b : bool)
| VFloat (f : float)
| VStr (s : str)
| VList (l : list value)
| VDict (d : gmap string value).

Abbreviation dict := (gmap string value).

(** [type(v).__name__] *)
Definition type_name (v : value) : str :=
  match v with
  | VNone => txt "NoneType"
  | VBool _ => txt "bool"
  | VFloat _ => txt "float"
  | VStr _ => txt "str"
  | VList _ => txt "list"
  | VDict _ => txt "dict"
  end.

(** An exception object, an instance of [Exception]: its class and
    [str(e)]. *)
Inductive exn : Type := Exception (cls : string) (msg : str).

Definition exn_str (e : exn) : str := let 'Exception _ m := e in m.

Inductive result (A : Type) : Type :=
| Ok (a : A)
| Raise (e : exn).
Arguments Ok {A} a.
Arguments Raise {A} e.

Definition rbind {A B} (r : result A) (k : A -> result B) : result B :=
  match r with
  | Ok a => k a
  | Raise e => Raise e
  end.

(** [len(v)]: defined on sized values, [TypeError] otherwise. *)
Definition len (v : value) : result nat :=
  match v with
  | VStr s => Ok (length s)
  | VList l => Ok (length l)
  | VDict d => Ok (size d)
  | _ => Raise (Exception "TypeError"
                  (txt "object of type '" ++ type_name v ++ txt "' has no len()"))
  end.

(** [v > f] for a float [f]; [bool] is a subclass of [int] with values 0 and 1. *)
Definition gt_float (v : value) (f : float) : result bool :=
  match v with
  | VFloat x => Ok (PrimFloat.ltb f x)
  | VBool b => Ok (PrimFloat.ltb f (if b then 1 else 0))
  | _ => Raise (Exception "TypeError"
                  (txt "'>' not supported between instances of '"
                   ++ type_name v ++ txt "' and 'float'"))
  end.

(** [str.isspace] on one code point. *)
Definition is_space (c : N) : bool :=
  ((9 <=? c) && (c <=? 13) || (28 <=? c) && (c <=? 32) || (c =? 133)
   || (c =? 160) || (c =? 5760) || (8192 <=? c) && (c <=? 8202)
   || (c =? 8232) || (c =? 8233) || (c =? 8239) || (c =? 8287)
   || (c =? 12288))%N.

Fixpoint lstrip (p : N -> bool) (s : str) : str :=
  match s with
  | [] => []
  | c :: s' => if p c then lstrip p s' else s
  end.

Definition rstrip (p : N -> bool) (s : str) : str :=
  rev (lstrip p (rev s)).

(** [s.strip()] with [p := is_space]; [s.strip(chars)] with [p] membership in [chars]. *)
Definition strip (p : N -> bool) (s : str) : str := rstrip p (lstrip p s).

Definition one_of (chars : str) (c : N) : bool := bool_decide (c ∈ chars).

(** [s.split(sep)] for a one-character separator. *)
Fixpoint split (sep : N) (s : str) : list str :=
  match s with
  | [] => [[]]
  | c :: s' =>
      if (c =? sep)%N then [] :: split sep s'
      else match split sep s' with
           | [] => [[c]]
           | w :: ws => (c :: w) :: ws
           end
  end.

(** [sep.join(parts)] *)
Fixpoint join (sep : str) (parts : list str) : str :=
  match parts with
  | [] => []
  | [p] => p
  | p :: ps => p ++ sep ++ join sep ps
  end.

(** [str(n)] for a non-negative integer. *)
Definition str_of_nat (n : nat) : str := txt (pretty n).

Definition str_of_Z (z : Z) : str := txt (pretty z).

(** Decimal digits of [n], left-padded with zeros to [width]. *)
Definition zero_pad (width n : nat) : str :=
  let d := str_of_nat n in
  replicate (width - length d) 48%N ++ d.

(** The integer nearest to [m * 2^e], ties to even. *)
Definition round_half_even (m : positive) (e : Z) : Z :=
  if (0 <=? e)%Z then Z.shiftl (Z.pos m) e
  else
    let d := Z.shiftl 1 (- e) in
    let q := (Z.pos m / d)%Z in
    let r := (Z.pos m mod d)%Z in
    match (2 * r ?= d)%Z with
    | Lt => q
    | Gt => (q + 1)%Z
    | Eq => if Z.even q then q else (q + 1)%Z
    end.

(** [format(x, '.0%')]: the double [x * 100] printed with no decimals. *)
Definition format_percent0 (x : float) : str :=
  let sign (s : bool) : str := if s then txt "-" else [] in
  match Prim2SF (x * 100)%float with
  | S754_nan => txt "nan%"
  | S754_infinity s => sign s ++ txt "inf%"
  | S754_zero s => sign s ++ txt "0%"
  | S754_finite s m e => sign s ++ str_of_Z (round_half_even m e) ++ txt "%"
  end.

(** A naive [datetime] value, field by field. *)
Record datetime : Type := mk_datetime {
  year : nat; month : nat; day : nat;
  hour : nat; minute : nat; second : nat; microsecond : nat
}.

(** [dt.isoformat()] *)
Definition isoformat (dt : datetime) : str :=
  zero_pad 4 (year dt) ++ txt "-" ++ zero_pad 2 (month dt) ++ txt "-"
  ++ zero_pad 2 (day dt) ++ txt "T" ++ zero_pad 2 (hour dt) ++ txt ":"
  ++ zero_pad 2 (minute dt) ++ txt ":" ++ zero_pad 2 (second dt)
  ++ (if Nat.eqb (microsecond dt) 0 then []
      else txt "." ++ zero_pad 6 (microsecond dt)).

End Py.
Import Py.

(** ** State coordination layer *)

Inductive WorkflowStatus : Type := PENDING | IN_PROGRESS | COMPLETED | FAILED.

Record WorkflowState : Type := mk_WorkflowState {
  workflow_id : str;
  task : str;
  status : WorkflowStatus;
  current_step : nat;
  total_steps : nat;
  steps_completed : list str;
  step_results : dict;
  execution_log : list dict;
  start_time : option datetime;
  end_time : option datetime
}.

(** The dataclass constructor with its field defaults. *)
Definition new_WorkflowState (workflow_id task : str) (status : WorkflowStatus)
  : WorkflowState :=
  mk_WorkflowState workflow_id task status 0 0 [] ∅ [] None None.

Definition set_execution_log (l : list dict) (st : WorkflowState) : WorkflowState :=
  mk_WorkflowState (workflow_id st) (task st) (status st) (current_step st)
    (total_steps st) (steps_completed st) (step_results st) l
    (start_time st) (end_time st).

Definition set_status (s : WorkflowStatus) (st : WorkflowState) : WorkflowState :=
  mk_WorkflowState (workflow_id st) (task st) s (current_step st)
    (total_steps st) (steps_completed st) (step_results st) (execution_log st)
    (start_time st) (end_time st).

Definition set_start_time (t : datetime) (st : WorkflowState) : WorkflowState :=
  mk_WorkflowState (workflow_id st) (task st) (status st) (current_step st)
    (total_steps st) (steps_completed st) (step_results st) (execution_log st)
    (Some t) (end_time st).

Definition set_total_steps (n : nat) (st : WorkflowState) : WorkflowState :=
  mk_WorkflowState (workflow_id st) (task st) (status st) (current_step st)
    n (steps_completed st) (step_results st) (execution_log st)
    (start_time st) (end_time st).

(** [l[-n:]] *)
Definition last_n {A} (n : nat) (l : list A) : list A := drop (length l - n) l.

(** The entry [log_event] builds; [now] is the value of [datetime.now()]. *)
Definition log_entry (now : datetime) (event_type message : str)
    (data : option dict) : dict :=
  {[ "timestamp" := VStr (isoformat now);
     "event_type" := VStr event_type;
     "message" := VStr message;
     "data" := VDict (match data with
                      | Some d => if decide (size d = 0) then ∅ else d
                      | None => ∅
                      end) ]}.

Definition log_event (self : WorkflowState) (now : datetime)
    (event_type message : str) (data : option dict) : WorkflowState :=
  let self :=
    if decide (500 ≤ length (execution_log self))
    then set_execution_log (last_n 400 (execution_log self)) self
    else self in
  set_execution_log
    (execution_log self ++ [log_entry now event_type message data]) self.

(** The arguments of one [log_event] call, and a sequence of calls. *)
Record log_call : Type := mk_log_call {
  lc_now : datetime; lc_type : str; lc_message : str; lc_data : option dict
}.

Definition log_call_entry (c : log_call) : dict :=
  log_entry (lc_now c) (lc_type c) (lc_message c) (lc_data c).

Definition log_events (calls : list log_call) (st : WorkflowState) : WorkflowState :=
  fold_left (fun st c => log_event st (lc_now c) (lc_type c) (lc_message c) (lc_data c))
    calls st.

(** ** Cognitive agent layer: the validator *)

Record ValidationResult : Type := mk_ValidationResult {
  is_valid : bool;
  confidence : value;
  feedback : str
}.

Definition feedback_verified : str := txt "Content verified successfully.".
Definition feedback_rejected : str := txt "Content too short or lacks citations.".

Definition ValidatorAgent_execute (result context : dict) : Py.result ValidationResult :=
  rbind (len (default (VStr []) (result !! "output"))) (fun output_len =>
  let base_conf := default (VFloat 0.5) (result !! "confidence") in
  rbind (if decide (50 < output_len) then gt_float base_conf 0.6 else Ok false)
    (fun is_valid =>
  let feedback := if is_valid then feedback_verified else feedback_rejected in
  Ok (mk_ValidationResult is_valid base_conf feedback))).

(** ** The generation client and the run monad *)

(** The keyword arguments of one [co.chat] call. *)
Record ChatRequest : Type := mk_ChatRequest {
  message : str;
  model : option str;
  temperature : float;
  connectors : option (list dict)
}.

(** A response object as the client documents it: its [text] and, when
    the attribute exists ([hasattr]), its list of [citations]. *)
Record ChatResponse : Type := mk_ChatResponse {
  text : str;
  citations : option (list value)
}.

Inductive ChatOutcome : Type :=
| Returns (response : ChatResponse)
| Raises (e : exn).

(** What a run reads from outside: the outcome of the k-th [co.chat] call
    (a call whose response cannot be read raises like a failed call),
    whether the k-th invocation of the event callback raises, the value
    of [int(time.time())] at entry and the value of [datetime.now()]. *)
Record World : Type := mk_World {
  co_chat : nat -> ChatRequest -> ChatOutcome;
  event_callback : nat -> str -> dict -> option exn;
  time_time : Z;
  datetime_now : datetime
}.

(** What a run does, in order: calls to the outside, agent invocations
    and assignments to the workflow state. *)
Inductive action : Type :=
| Chat (request : ChatRequest)
| Callback (type_ : str) (payload : dict)
| Sleep (seconds : float)
| Invoke (agent : string) (input : value)
| SetStartTime (t : datetime)
| SetTotalSteps (n : nat)
| SetStatus (s : WorkflowStatus).

(** The local [state] of a run, the number of [co.chat] calls and of
    callback invocations made so far, and what was done so far. *)
Record Run : Type := mk_Run {
  state : WorkflowState;
  chats : nat;
  callbacks : nat;
  trace : list action
}.

Definition perform (a : action) (r : Run) : Run :=
  mk_Run
    (match a with
     | SetStartTime t => set_start_time t (state r)
     | SetTotalSteps n => set_total_steps n (state r)
     | SetStatus s => set_status s (state r)
     | _ => state r
     end)
    (match a with Chat _ => S (chats r) | _ => chats r end)
    (match a with Callback _ _ => S (callbacks r) | _ => callbacks r end)
    (trace r ++ [a]).

Definition perform_all (acts : list action) (r : Run) : Run :=
  fold_left (fun r a => perform a r) acts r.

Definition M (A : Type) : Type := Run -> result A * Run.

#[export] Instance M_ret : MRet M := fun A a r => (Ok a, r).

#[export] Instance M_bind : MBind M := fun A B k m r =>
  match m r with
  | (Ok a, r') => k a r'
  | (Raise e, r') => (Raise e, r')
  end.

(** [try: body except ... as e: handler e] *)
Definition try_except {A} (body : M A) (handler : exn -> M A) : M A := fun r =>
  match body r with
  | (Ok a, r') => (Ok a, r')
  | (Raise e, r') => handler e r'
  end.

(** A computation without effects that returns or raises. *)
Definition lift {A} (x : result A) : M A := fun r => (x, r).

(** An action that cannot raise. *)
Definition act (a : action) : M unit := fun r => (Ok tt, perform a r).

(** [time.sleep(seconds)] *)
Definition sleep (seconds : float) : M unit := act (Sleep seconds).

Section Run.
Context (w : World).

Definition chat (request : ChatRequest) : M ChatResponse := fun r =>
  let r' := perform (Chat request) r in
  match co_chat w (chats r) request with
  | Returns response => (Ok response, r')
  | Raises e => (Raise e, r')
  end.

Definition call_event_callback (type_ : str) (payload : dict) : M unit := fun r =>
  let r' := perform (Callback type_ payload) r in
  match event_callback w (callbacks r) type_ payload with
  | None => (Ok tt, r')
  | Some e => (Raise e, r')
  end.

(** ** Cognitive agent layer: planner and executor *)

Record Plan : Type := mk_Plan {
  steps : list str;
  complexity : str;
  output_type : str
}.

Definition planner_prompt (task : str) : str :=
  txt "You are a Strategic Planner Agent. Break down this task: "
  ++ [quote] ++ task ++ [quote] ++ txt " " ++ [newline]
  ++ txt "        into 3 to 4 sequential, actionable search/analysis steps. "
  ++ [newline]
  ++ txt "        Format: Return ONLY the steps separated by newlines.".

Definition planner_request (task : str) : ChatRequest :=
  mk_ChatRequest (planner_prompt task) None 0.3 None.

(** [[s.strip('- ').strip() for s in text.split('\n') if s.strip()]] *)
Definition parse_steps (text : str) : list str :=
  (fun s => strip is_space (strip (one_of (txt "- ")) s))
    <$> filter (fun s => strip is_space s ≠ []) (split newline text).

Definition fallback_steps : list str :=
  [txt "Research the topic overview"; txt "Analyze key trends and data";
   txt "Synthesize findings"].

Definition PlannerAgent_execute (task : str) (context : dict) : M Plan :=
  '(steps, complexity) ←
    try_except
      (response ← chat (planner_request task);
       let steps := parse_steps (text response) in
       let complexity :=
         if decide (3 < length steps) then txt "high" else txt "medium" in
       mret (steps, complexity))
      (fun _ => mret (fallback_steps, txt "medium"));
  mret (mk_Plan steps complexity (txt "plan")).

(** The dictionary [ExecutorAgent.execute] returns.  The keys [status],
    [output] and [confidence] are always there; [sr_citations] is [None]
    when the dictionary has no [citations] key. *)
Record StepResult : Type := mk_StepResult {
  sr_status : str;
  sr_output : str;
  sr_confidence : float;
  sr_citations : option (list value)
}.

Definition StepResult_dict (r : StepResult) : dict :=
  let d : dict :=
    {[ "status" := VStr (sr_status r);
       "output" := VStr (sr_output r);
       "confidence" := VFloat (sr_confidence r) ]} in
  match sr_citations r with
  | Some cs => <[ "citations" := VList cs ]> d
  | None => d
  end.

Definition executor_request (step : str) : ChatRequest :=
  mk_ChatRequest (txt "Perform this task in detail: " ++ step) None 0.3
    (Some [ {[ "id" := VStr (txt "web-search") ]} ]).

Definition ExecutorAgent_execute (step : str) (context : dict) : M StepResult :=
  try_except
    (response ← chat (executor_request step);
     let output_text := text response in
     let has_citations :=
       match citations response with
       | Some cs => bool_decide (0 < length cs)
       | None => false
       end in
     let confidence := if has_citations then 0.95%float else 0.75%float in
     mret (mk_StepResult (txt "success") output_text confidence
             (Some (if has_citations then default [] (citations response) else []))))
    (fun e => mret (mk_StepResult (txt "failed") (exn_str e) 0.0%float None)).

(** ** Agentic infrastructure layer *)

(** [self.agents[name].execute(input, {})] *)
Definition agent_planner (task : str) : M Plan :=
  act (Invoke "planner" (VStr task));; PlannerAgent_execute task ∅.

Definition agent_executor (step : str) : M StepResult :=
  act (Invoke "executor" (VStr step));; ExecutorAgent_execute step ∅.

Definition agent_validator (result : dict) : M ValidationResult :=
  act (Invoke "validator" (VDict result));;
  lift (ValidatorAgent_execute result ∅).

Definition info : value := VStr (txt "info").

Definition emit (type_ : str) (msg role node : value) : M unit :=
  call_event_callback type_ {[ "msg" := msg; "role" := role; "node" := node ]}.

(** U+26A0 U+FE0F and U+2705 *)
Definition warning_sign : str := [9888; 65039]%N.
Definition check_mark : str := [9989]%N.

Definition section_text (step : str) (exec_res : StepResult) : str :=
  txt "### " ++ step ++ [newline] ++ sr_output exec_res ++ [newline].

(** One iteration of the loop over [enumerate(steps)]; the result is
    [accumulated_report] after the iteration. *)
Definition loop_body (i : nat) (step : str) (accumulated_report : list str)
  : M (list str) :=
  emit (txt "activate") (VStr (txt "Executing: " ++ step)) info
    (VStr (txt "executor"));;
  exec_res ← agent_executor step;
  if decide (sr_status exec_res = txt "failed") then
    emit (txt "log")
      (VStr (warning_sign ++ txt " Step failed: " ++ sr_output exec_res))
      (VStr (txt "error")) VNone;;
    mret accumulated_report
  else
    emit (txt "activate") (VStr (txt "Verifying Data Integrity...")) info
      (VStr (txt "validator"));;
    val_res ← agent_validator (StepResult_dict exec_res);
    emit (txt "activate") (VStr (txt "Quality Gate Decision")) info
      (VStr (txt "decision"));;
    sleep 0.5;;
    if is_valid val_res then
      emit (txt "log")
        (VStr (check_mark ++ txt " Phase " ++ str_of_nat (i + 1)
               ++ txt " Verified (Confidence: "
               ++ format_percent0 (sr_confidence exec_res) ++ txt ")"))
        (VStr (txt "success")) VNone;;
      mret (accumulated_report ++ [section_text step exec_res])
    else
      emit (txt "log")
        (VStr (warning_sign ++ txt " Quality Warning: " ++ feedback val_res))
        (VStr (txt "warning")) VNone;;
      mret (accumulated_report ++ [section_text step exec_res]).

Fixpoint for_steps (i : nat) (steps : list str) (accumulated_report : list str)
  : M (list str) :=
  match steps with
  | [] => mret accumulated_report
  | step :: rest =>
      accumulated_report ← loop_body i step accumulated_report;
      for_steps (S i) rest accumulated_report
  end.

Definition final_prompt (task full_context : str) : str :=
  txt "Based on the following research segments about '" ++ task
  ++ txt "', write a cohesive, professional markdown report:"
  ++ [newline; newline] ++ full_context.

Definition final_request (task full_context : str) : ChatRequest :=
  mk_ChatRequest (final_prompt task full_context) (Some (txt "command-r")) 0.3 None.

(** The body of the [try] block. *)
Definition workflow_body (task : str) : M unit :=
  emit (txt "status") (VStr (txt "System Initialized.")) info (VStr (txt "start"));;
  act (SetStartTime (datetime_now w));;
  emit (txt "activate") (VStr (txt "Analyzing Task Strategy...")) info
    (VStr (txt "planner"));;
  plan ← agent_planner task;
  let steps := steps plan in
  act (SetTotalSteps (length steps));;
  emit (txt "log")
    (VStr (txt "Strategy formed with " ++ str_of_nat (length steps) ++ txt " phases."))
    (VStr (txt "planner")) VNone;;
  sleep 1;;
  accumulated_report ← for_steps 0 steps [];
  emit (txt "activate") (VStr (txt "Synthesizing Final Intelligence Report..."))
    info (VStr (txt "end"));;
  let full_context := join [newline] accumulated_report in
  final_response ← chat (final_request task full_context);
  emit (txt "finish") (VDict {[ "report" := VStr (text final_response) ]}) info VNone;;
  act (SetStatus COMPLETED).

(** The [except Exception as e] block. *)
Definition workflow_handler (e : exn) : M unit :=
  emit (txt "log") (VStr (txt "Critical System Failure: " ++ exn_str e))
    (VStr (txt "error")) VNone;;
  act (SetStatus FAILED).

Definition initial_run (task : str) : Run :=
  let workflow_id := txt "wf_" ++ str_of_Z (time_time w) in
  mk_Run (new_WorkflowState workflow_id task PENDING) 0 0 [].

(** The outcome is [Ok tt] when the method returns and [Raise e] when [e]
    escapes it; the run carries the final workflow state and the trace. *)
Definition execute_workflow (task : str) : result unit * Run :=
  try_except (workflow_body task) workflow_handler (initial_run task).

End Run.

(** ** Scripted worlds *)

(** A client that answers its k-th call with the k-th scripted outcome. *)
Definition scripted (outcomes : list ChatOutcome) (k : nat) (_ : ChatRequest)
  : ChatOutcome :=
  default (Raises (Exception "RuntimeError" (txt "no scripted response")))
    (outcomes !! k).

Definition quiet_callback (_ : nat) (_ : str) (_ : dict) : option exn := None.

Definition clock_reading : datetime := mk_datetime 2024 1 15 10 30 0 0.

Definition scripted_world (outcomes : list ChatOutcome) : World :=
  mk_World (scripted outcomes) quiet_callback 1705314600 clock_reading.

Definition sixty : str := replicate 60 120%N.

Definition cited (t : str) : ChatOutcome :=
  Returns (mk_ChatResponse t (Some [VStr (txt "source")])).

Definition uncited (t : str) : ChatOutcome := Returns (mk_ChatResponse t None).

Definition boom : ChatOutcome := Raises (Exception "RuntimeError" (txt "timeout")).

Definition two_steps : str := txt "Step A" ++ [newline] ++ txt "Step B".

(** Both steps succeed and synthesis returns. *)
Definition world_ok : World :=
  scripted_world [uncited two_steps; cited sixty; cited sixty; uncited (txt "REPORT")].

(** The first step's generation call raises. *)
Definition world_step_fails : World :=
  scripted_world [uncited two_steps; boom; cited sixty; uncited (txt "REPORT")].

(** The synthesis call raises. *)
Definition world_synthesis_fails : World :=
  scripted_world [uncited two_steps; cited sixty; uncited (txt "short"); boom].

Definition the_task : str := txt "Summarize AI trends".

(** The callback invocations of a trace, in order. *)
Definition events (t : list action) : list (str * dict) :=
  omap (fun a => match a with Callback ty p => Some (ty, p) | _ => None end) t.

(** The kind of an event and the [node] and [role] entries of its payload. *)
Definition event_summary (e : str * dict) : str * option value * option value :=
  (e.1, e.2 !! "node", e.2 !! "role").

(** ** The agents and the loop as functions of the outcomes

    These definitions restate what the code above computes, as plain
    functions of the outcomes of the generation calls; the properties
    below prove that the code computes exactly this. *)

(** The plan the planner returns, given the outcome of its call. *)
Definition planner_result (o : ChatOutcome) : Plan :=
  match o with
  | Returns response =>
      let steps := parse_steps (text response) in
      mk_Plan steps
        (if decide (3 < length steps) then txt "high" else txt "medium")
        (txt "plan")
  | Raises _ => mk_Plan fallback_steps (txt "medium") (txt "plan")
  end.

(** The result the executor returns, given the outcome of its call. *)
Definition executor_result (o : ChatOutcome) : StepResult :=
  match o with
  | Returns response =>
      match citations response with
      | Some (c :: cs) =>
          mk_StepResult (txt "success") (text response) 0.95 (Some (c :: cs))
      | _ => mk_StepResult (txt "success") (text response) 0.75 (Some [])
      end
  | Raises e => mk_StepResult (txt "failed") (exn_str e) 0.0 None
  end.

(** The validator's answer on an executor result. *)
Definition validation_of (res : StepResult) : ValidationResult :=
  let verdict :=
    bool_decide (50 < length (sr_output res))
    && PrimFloat.ltb 0.6 (sr_confidence res) in
  mk_ValidationResult verdict (VFloat (sr_confidence res))
    (if verdict then feedback_verified else feedback_rejected).

(** One invocation of the callback through [emit]. *)
Definition event (type_ : str) (msg role node : value) : action :=
  Callback type_ {[ "msg" := msg; "role" := role; "node" := node ]}.

Definition executing_event (step : str) : action :=
  event (txt "activate") (VStr (txt "Executing: " ++ step)) info
    (VStr (txt "executor")).

Definition step_failed_event (res : StepResult) : action :=
  event (txt "log")
    (VStr (warning_sign ++ txt " Step failed: " ++ sr_output res))
    (VStr (txt "error")) VNone.

Definition verifying_event : action :=
  event (txt "activate") (VStr (txt "Verifying Data Integrity...")) info
    (VStr (txt "validator")).

Definition decision_event : action :=
  event (txt "activate") (VStr (txt "Quality Gate Decision")) info
    (VStr (txt "decision")).

Definition verified_event (i : nat) (res : StepResult) : action :=
  event (txt "log")
    (VStr (check_mark ++ txt " Phase " ++ str_of_nat (i + 1)
           ++ txt " Verified (Confidence: "
           ++ format_percent0 (sr_confidence res) ++ txt ")"))
    (VStr (txt "success")) VNone.

Definition warning_event (res : StepResult) : action :=
  event (txt "log")
    (VStr (warning_sign ++ txt " Quality Warning: "
           ++ feedback (validation_of res)))
    (VStr (txt "warning")) VNone.

Definition failed (res : StepResult) : bool :=
  bool_decide (sr_status res = txt "failed").

(** What iteration [i] does on [step] when the executor returns [res]. *)
Definition step_actions (i : nat) (step : str) (res : StepResult) : list action :=
  [executing_event step; Invoke "executor" (VStr step);
   Chat (executor_request step)]
  ++ (if failed res then [step_failed_event res]
      else [verifying_event; Invoke "validator" (VDict (StepResult_dict res));
            decision_event; Sleep 0.5;
            if is_valid (validation_of res) then verified_event i res
            else warning_event res]).

(** What that iteration appends to [accumulated_report]. *)
Definition step_report (step : str) (res : StepResult) : list str :=
  if failed res then [] else [section_text step res].

Section Outcomes.
Context (w : World).

(** The executor's result on [step] when its call is the k-th of the run. *)
Definition step_result (k : nat) (step : str) : StepResult :=
  executor_result (co_chat w k (executor_request step)).

(** The whole loop, when its first generation call is the k-th of the run
    and its first iteration has index [i]. *)
Fixpoint loop_actions (k i : nat) (steps : list str) : list action :=
  match steps with
  | [] => []
  | step :: rest =>
      step_actions i step (step_result k step) ++ loop_actions (S k) (S i) rest
  end.

Fixpoint loop_report (k : nat) (steps : list str) : list str :=
  match steps with
  | [] => []
  | step :: rest => step_report step (step_result k step) ++ loop_report (S k) rest
  end.

(** The plan of the run: the planner makes the first generation call. *)
Definition run_plan (task : str) : Plan :=
  planner_result (co_chat w 0 (planner_request task)).

(** The synthesis request and its outcome: the call after the steps'. *)
Definition synthesis_request (task : str) : ChatRequest :=
  final_request task (join [newline] (loop_report 1 (steps (run_plan task)))).

Definition synthesis_outcome (task : str) : ChatOutcome :=
  co_chat w (S (length (steps (run_plan task)))) (synthesis_request task).

Definition finish_event (response : ChatResponse) : action :=
  event (txt "finish") (VDict {[ "report" := VStr (text response) ]}) info VNone.

Definition critical_event (e : exn) : action :=
  event (txt "log") (VStr (txt "Critical System Failure: " ++ exn_str e))
    (VStr (txt "error")) VNone.

(** What a run does before the loop, and after it. *)
Definition run_prologue (task : str) : list action :=
  let steps := steps (run_plan task) in
  [event (txt "status") (VStr (txt "System Initialized.")) info (VStr (txt "start"));
   SetStartTime (datetime_now w);
   event (txt "activate") (VStr (txt "Analyzing Task Strategy...")) info
     (VStr (txt "planner"));
   Invoke "planner" (VStr task);
   Chat (planner_request task);
   SetTotalSteps (length steps);
   event (txt "log")
     (VStr (txt "Strategy formed with " ++ str_of_nat (length steps)
            ++ txt " phases."))
     (VStr (txt "planner")) VNone;
   Sleep 1].

Definition run_epilogue (task : str) : list action :=
  [event (txt "activate") (VStr (txt "Synthesizing Final Intelligence Report..."))
     info (VStr (txt "end"));
   Chat (synthesis_request task)]
  ++ match synthesis_outcome task with
     | Returns response => [finish_event response; SetStatus COMPLETED]
     | Raises e => [critical_event e; SetStatus FAILED]
     end.

(** Everything a run does when the callback always returns. *)
Definition run_actions (task : str) : list action :=
  run_prologue task ++ loop_actions 1 0 (steps (run_plan task))
  ++ run_epilogue task.

End Outcomes.

(** The callback of this world returns at every invocation. *)
Definition callback_returns (w : World) : Prop :=
  forall k type_ payload, event_callback w k type_ payload = None.

(** Classifiers of trace entries. *)
Definition is_activate (node : string) (a : action) : bool :=
  match a with
  | Callback type_ payload =>
      bool_decide (type_ = txt "activate")
      && match payload !! "node" with
         | Some (VStr n) => bool_decide (n = txt node)
         | _ => false
         end
  | _ => false
  end.

Definition is_validator_call (a : action) : bool :=
  match a with
  | Invoke agent _ => bool_decide (agent = "validator")
  | _ => false
  end.

Definition count (p : action -> bool) (t : list action) : nat :=
  length (filter (fun a => p a = true) t).

Definition status_writes (t : list action) : list WorkflowStatus :=
  omap (fun a => match a with SetStatus s => Some s | _ => None end) t.

(** An action that writes neither [status] nor [start_time]. *)
Definition quiet (a : action) : Prop :=
  match a with
  | SetStatus _ | SetStartTime _ => False
  | _ => True
  end.

(** A computation all of whose actions are quiet, however it ends. *)
Definition Quiet {A} (m : M A) : Prop :=
  forall r, exists acts, (m r).2 = perform_all acts r ∧ Forall quiet acts.

(** A computation whose actions are quiet, except that it assigns status
    [s] as its last action when it returns. *)
Definition Ends (s : WorkflowStatus) (m : M unit) : Prop :=
  forall r, exists acts,
    Forall quiet acts
    ∧ match (m r).1 with
      | Ok _ => (m r).2 = perform_all (acts ++ [SetStatus s]) r
      | Raise _ => (m r).2 = perform_all acts r
      end.

(** The first event of every run. *)
Definition initialized_event : action :=
  event (txt "status") (VStr (txt "System Initialized.")) info (VStr (txt "start")).

(** A callback that raises at every invocation. *)
Definition raising_callback (_ : nat) (_ : str) (_ : dict) : option exn :=
  Some (Exception "BrokenPipeError" (txt "client went away")).

Definition world_callback_raises : World :=
  mk_World (scripted [uncited two_steps; cited sixty; cited sixty; uncited (txt "REPORT")])
    raising_callback 1705314600 clock_reading.

Definition initialized_payload : dict :=
  {[ "msg" := VStr (txt "System Initialized."); "role" := info;
     "node" := VStr (txt "start") ]}.

(** ** Elapsed time *)

(** The proleptic Gregorian ordinal of a date, as [date.toordinal]. *)
Definition is_leap (y : Z) : bool :=
  ((y mod 4 =? 0) && (negb (y mod 100 =? 0) || (y mod 400 =? 0)))%Z.

Definition days_before_year (y : Z) : Z :=
  let y' := (y - 1)%Z in
  (y' * 365 + y' / 4 - y' / 100 + y' / 400)%Z.

Definition days_before_month (y : Z) (m : nat) : Z :=
  let table : list Z := [0; 31; 59; 90; 120; 151; 181; 212; 243; 273; 304; 334]%Z in
  (default 0 (table !! (m - 1)%nat)
   + (if decide (2 < m)%nat then (if is_leap y then 1 else 0) else 0))%Z.

Definition toordinal (dt : datetime) : Z :=
  (days_before_year (Z.of_nat (year dt))
   + days_before_month (Z.of_nat (year dt)) (month dt)
   + Z.of_nat (day dt))%Z.

(** The microseconds of the [timedelta] [a - b] of two naive datetimes. *)
Definition microseconds_between (a b : datetime) : Z :=
  (((toordinal a - toordinal b) * 86400
    + ((Z.of_nat (hour a) - Z.of_nat (hour b)) * 3600
       + (Z.of_nat (minute a) - Z.of_nat (minute b)) * 60
       + (Z.of_nat (second a) - Z.of_nat (second b)))) * 1000000
   + (Z.of_nat (microsecond a) - Z.of_nat (microsecond b)))%Z.

(** [a / b] on integers, [b] positive: the double nearest to the
    quotient, ties to even. *)
Definition true_divide (a : Z) (b : positive) : float :=
  match a with
  | Z0 => 0%float
  | _ =>
      let n := (Z.abs a * 2 ^ 128)%Z in
      let q := (n / Z.pos b)%Z in
      let r := (n mod Z.pos b)%Z in
      let loc := if (r =? 0)%Z then loc_Exact
                 else loc_Inexact (2 * r ?= Z.pos b)%Z in
      SF2Prim (binary_round_aux prec emax (a <? 0)%Z q (-128) loc)
  end.

(** [timedelta.total_seconds()] *)
Definition total_seconds (microseconds : Z) : float :=
  true_divide microseconds 1000000.

(** [format(x, '.1f')] *)
Definition format_1f (x : float) : str :=
  let sign (s : bool) : str := if s then txt "-" else [] in
  match Prim2SF x with
  | S754_nan => txt "nan"
  | S754_infinity s => sign s ++ txt "inf"
  | S754_zero s => sign s ++ txt "0.0"
  | S754_finite s m e =>
      let n := round_half_even (m * 10) e in
      sign s ++ str_of_Z (n / 10) ++ txt "." ++ str_of_Z (n mod 10)
  end.

Definition get_execution_time (self : WorkflowState) : option str :=
  match start_time self, end_time self with
  | Some start, Some finish =>
      let seconds := total_seconds (microseconds_between finish start) in
      Some (if PrimFloat.ltb seconds 60 then format_1f seconds ++ txt "s"
            else format_1f (seconds / 60)%float ++ txt "m")
  | _, _ => None
  end.

Definition set_end_time (t : datetime) (st : WorkflowState) : WorkflowState :=
  mk_WorkflowState (workflow_id st) (task st) (status st) (current_step st)
    (total_steps st) (steps_completed st) (step_results st) (execution_log st)
    (start_time st) (Some t).

(** ** More classifiers of trace entries *)

Definition is_sleep (a : action) : bool :=
  match a with Sleep _ => true | _ => false end.

Definition is_chat (a : action) : bool :=
  match a with Chat _ => true | _ => false end.

(** A callback invocation with an event of the given kind. *)
Definition is_kind (kind : string) (a : action) : bool :=
  match a with
  | Callback type_ _ => bool_decide (type_ = txt kind)
  | _ => false
  end.

(** The length of the log after [n] calls of [log_event] on a fresh
    state. *)
Definition log_length (n : nat) : nat :=
  if decide (n ≤ 500) then n else 401 + (n - 501) mod 100.

(** ** The streaming endpoint of [app.py] *)

(** [json.dumps] with its defaults, on text and on dictionaries that map
    text to text, whose entries are listed in insertion order. *)
Definition hex_digits : str := txt "0123456789abcdef".

Definition hex_digit (d : N) : N := default 48%N (hex_digits !! N.to_nat d).

(** ['{0:04x}'.format(n)] for [n] below 0x10000 *)
Definition hex4 (n : N) : str :=
  [hex_digit (n / 4096 mod 16); hex_digit (n / 256 mod 16);
   hex_digit (n / 16 mod 16); hex_digit (n mod 16)]%N.

Definition unicode_escape (n : N) : str := [92; 117]%N ++ hex4 n.

Definition json_escape (c : N) : str :=
  if (c =? 92)%N then [92; 92]%N
  else if (c =? 34)%N then [92; 34]%N
  else if (c =? 8)%N then [92; 98]%N
  else if (c =? 12)%N then [92; 102]%N
  else if (c =? 10)%N then [92; 110]%N
  else if (c =? 13)%N then [92; 114]%N
  else if (c =? 9)%N then [92; 116]%N
  else if ((32 <=? c) && (c <=? 126))%N then [c]
  else if (c <? 65536)%N then unicode_escape c
  else
    let n := (c - 65536)%N in
    unicode_escape (N.lor 55296 (N.land (N.shiftr n 10) 1023))
    ++ unicode_escape (N.lor 56320 (N.land n 1023)).

Definition json_string (s : str) : str :=
  [quote] ++ (s ≫= json_escape) ++ [quote].

Definition json_dumps (d : list (str * str)) : str :=
  txt "{"
  ++ join (txt ", ")
       ((fun kv => json_string kv.1 ++ txt ": " ++ json_string kv.2) <$> d)
  ++ txt "}".

(** [f"data: {json.dumps(d)}\n\n"] *)
Definition sse_frame (d : list (str * str)) : str :=
  txt "data: " ++ json_dumps d ++ [newline; newline].

(** What the generator does, in order: the frames it yields and the
    actions of the agents and of the client. *)
Inductive stream_item : Type :=
| Frame (data : str)
| Did (a : action).

Record Stream : Type := mk_Stream {
  g_chats : nat;
  g_items : list stream_item
}.

Definition G (A : Type) : Type := Stream -> result A * Stream.

#[export] Instance G_ret : MRet G := fun A a s => (Ok a, s).

#[export] Instance G_bind : MBind G := fun A B k m s =>
  match m s with
  | (Ok a, s') => k a s'
  | (Raise e, s') => (Raise e, s')
  end.

(** [yield frame] *)
Definition yield_ (frame : str) : G unit := fun s =>
  (Ok tt, mk_Stream (g_chats s) (g_items s ++ [Frame frame])).

(** A computation of the orchestrator's module inside the generator.  The
    endpoint has no workflow state; the computations it runs neither read
    nor write one. *)
Definition within {A} (m : M A) : G A := fun s =>
  let '(res, r) := m (mk_Run (new_WorkflowState [] [] PENDING) (g_chats s) 0 []) in
  (res, mk_Stream (chats r) (g_items s ++ (Did <$> trace r))).

Definition activate_frame (node msg : str) : str :=
  sse_frame [(txt "type", txt "activate"); (txt "node", node); (txt "msg", msg)].

Definition log_frame (msg role : str) : str :=
  sse_frame [(txt "type", txt "log"); (txt "msg", msg); (txt "role", role)].

Definition section_entry (i : nat) (step : str) (exec_res : StepResult) : str :=
  [newline] ++ txt "Section " ++ str_of_nat (i + 1) ++ txt ": " ++ step
  ++ [newline] ++ sr_output exec_res ++ [newline].

Definition analyst_prompt (task accumulated_data : str) : str :=
  [newline] ++ txt "        You are an AI analyst. The user asked: "
  ++ [quote] ++ task ++ [quote] ++ txt "." ++ [newline]
  ++ txt "        Based on the following research data, write a comprehensive executive summary in Markdown:"
  ++ [newline] ++ txt "        " ++ [newline]
  ++ txt "        " ++ accumulated_data ++ [newline] ++ txt "        ".

Definition analyst_request (task accumulated_data : str) : ChatRequest :=
  mk_ChatRequest (analyst_prompt task accumulated_data)
    (Some (txt "command-a-03-2025")) 0.3 None.

Section Streaming.
Context (w : World).

(** One iteration of the generator's loop; the result is
    [accumulated_data] after the iteration. *)
Definition stream_body (i : nat) (step : str) (accumulated_data : str) : G str :=
  yield_ (activate_frame (txt "executor") (txt "Researching: " ++ step));;
  exec_res ← within (agent_executor w step);
  let accumulated_data := accumulated_data ++ section_entry i step exec_res in
  yield_ (activate_frame (txt "validator") (txt "Verifying sources..."));;
  val_res ← within (agent_validator (StepResult_dict exec_res));
  yield_ (activate_frame (txt "decision") (txt "Quality Gate"));;
  (if is_valid val_res then
     let citations_count := length (default [] (sr_citations exec_res)) in
     yield_ (log_frame
               (check_mark ++ txt " Validated with " ++ str_of_nat citations_count
                ++ txt " citations.")
               (txt "success"))
   else
     yield_ (log_frame (warning_sign ++ txt " Low confidence data.") (txt "warning")));;
  within (sleep 0.5);;
  mret accumulated_data.

Fixpoint stream_steps (i : nat) (steps : list str) (accumulated_data : str)
  : G str :=
  match steps with
  | [] => mret accumulated_data
  | step :: rest =>
      accumulated_data ← stream_body i step accumulated_data;
      stream_steps (S i) rest accumulated_data
  end.

Definition generate (task : str) : G unit :=
  yield_ (sse_frame [(txt "type", txt "status"); (txt "node", txt "start");
                     (txt "msg", txt "Connecting to Neural Network...")]);;
  yield_ (activate_frame (txt "planner") (txt "Planner: Analyzing complexity..."));;
  plan ← within (agent_planner w task);
  let steps := steps plan in
  yield_ (log_frame
            (txt "Strategized " ++ str_of_nat (length steps)
             ++ txt " execution steps based on real analysis.")
            (txt "planner"));;
  accumulated_data ← stream_steps 0 steps [];
  yield_ (activate_frame (txt "end") (txt "Generating Final Report..."));;
  final_response ← within (chat w (analyst_request task accumulated_data));
  yield_ (sse_frame [(txt "type", txt "finish"); (txt "report", text final_response)]).

(** The stream of one request, consumed to its end; [task_arg] is the
    [task] query argument, if there is one. *)
Definition stream_workflow (task_arg : option str) : result unit * Stream :=
  let task := default (txt "Search about KSA Vision 2030") task_arg in
  generate task (mk_Stream 0 []).

End Streaming.

(** The frames of a stream, in order. *)
Definition frames (items : list stream_item) : list str :=
  omap (fun it => match it with Frame f => Some f | Did _ => None end) items.

(** The actions of a stream, in order. *)
Definition deeds (items : list stream_item) : list action :=
  omap (fun it => match it with Did a => Some a | Frame _ => None end) items.

(** ** The stream as a function of the outcomes *)

Definition success_frame (res : StepResult) : str :=
  log_frame
    (check_mark ++ txt " Validated with "
     ++ str_of_nat (length (default [] (sr_citations res))) ++ txt " citations.")
    (txt "success").

Definition warning_frame : str :=
  log_frame (warning_sign ++ txt " Low confidence data.") (txt "warning").

(** What iteration [i] of the generator does on [step] when the executor
    returns [res]. *)
Definition stream_step_items (step : str) (res : StepResult) : list stream_item :=
  [Frame (activate_frame (txt "executor") (txt "Researching: " ++ step));
   Did (Invoke "executor" (VStr step));
   Did (Chat (executor_request step));
   Frame (activate_frame (txt "validator") (txt "Verifying sources..."));
   Did (Invoke "validator" (VDict (StepResult_dict res)));
   Frame (activate_frame (txt "decision") (txt "Quality Gate"));
   Frame (if is_valid (validation_of res) then success_frame res else warning_frame);
   Did (Sleep 0.5)].

Section StreamOutcomes.
Context (w : World).

Fixpoint stream_loop_items (k : nat) (steps : list str) : list stream_item :=
  match steps with
  | [] => []
  | step :: rest =>
      stream_step_items step (step_result w k step) ++ stream_loop_items (S k) rest
  end.

(** What the loop appends to [accumulated_data]. *)
Fixpoint stream_data (k i : nat) (steps : list str) : str :=
  match steps with
  | [] => []
  | step :: rest =>
      section_entry i step (step_result w k step) ++ stream_data (S k) (S i) rest
  end.

Definition stream_request (task : str) : ChatRequest :=
  analyst_request task (stream_data 1 0 (steps (run_plan w task))).

Definition stream_outcome (task : str) : ChatOutcome :=
  co_chat w (S (length (steps (run_plan w task)))) (stream_request task).

Definition stream_prologue (task : str) : list stream_item :=
  [Frame (sse_frame [(txt "type", txt "status"); (txt "node", txt "start");
                     (txt "msg", txt "Connecting to Neural Network...")]);
   Frame (activate_frame (txt "planner") (txt "Planner: Analyzing complexity..."));
   Did (Invoke "planner" (VStr task));
   Did (Chat (planner_request task));
   Frame (log_frame
            (txt "Strategized " ++ str_of_nat (length (steps (run_plan w task)))
             ++ txt " execution steps based on real analysis.")
            (txt "planner"))].

Definition stream_epilogue (task : str) : list stream_item :=
  [Frame (activate_frame (txt "end") (txt "Generating Final Report..."));
   Did (Chat (stream_request task))]
  ++ match stream_outcome task with
     | Returns response =>
         [Frame (sse_frame [(txt "type", txt "finish");
                            (txt "report", text response)])]
     | Raises _ => []
     end.

Definition stream_items (task : str) : list stream_item :=
  stream_prologue task ++ stream_loop_items 1 (steps (run_plan w task))
  ++ stream_epilogue task.

End StreamOutcomes.

(** A character that may stand in one line of a text stream. *)
Definition printable (c : N) : Prop := (32 ≤ c ≤ 126)%N.

(** ** Runs whose callback may raise *)

(** What the callback does when its [k]-th invocation is the event [a]:
    [None] when it returns, [Some e] when it raises [e]. *)
Definition callback_outcome (w : World) (k : nat) (a : action) : option exn :=
  match a with
  | Callback type_ payload => event_callback w k type_ payload
  | _ => None
  end.

(** Performing actions in order, up to and including the first event at
    which the callback raises. *)
Fixpoint deliver (w : World) (acts : list action) (r : Run) : result unit * Run :=
  match acts with
  | [] => (Ok tt, r)
  | a :: rest =>
      match callback_outcome w (callbacks r) a with
      | None => deliver w rest (perform a r)
      | Some e => (Raise e, perform a r)
      end
  end.

Definition synthesizing_event : action :=
  event (txt "activate") (VStr (txt "Synthesizing Final Intelligence Report..."))
    info (VStr (txt "end")).

(** What the [try] block does up to and including the synthesis call,
    unless the callback raises on the way. *)
Definition body_actions (w : World) (task : str) : list action :=
  run_prologue w task ++ loop_actions w 1 0 (steps (run_plan w task))
  ++ [synthesizing_event; Chat (synthesis_request w task)].

(** What the [try] block does unless something raises: after a
    synthesis call that returns, the finish event and the assignment. *)
Definition try_actions (w : World) (task : str) : list action :=
  body_actions w task
  ++ match synthesis_outcome w task with
     | Returns response => [finish_event response; SetStatus COMPLETED]
     | Raises _ => []
     end.

(** A callback that raises at its [n]-th invocation (counted from 0) and
    returns at every other one. *)
Definition raising_at (n : nat) (k : nat) (_ : str) (_ : dict) : option exn :=
  if decide (k = n) then Some (Exception "BrokenPipeError" (txt "client went away"))
  else None.

(** Both steps would succeed, but the callback raises at the "Verifying"
    event of the first step (its fifth invocation). *)
Definition world_raises_at_verifying : World :=
  mk_World (scripted [uncited two_steps; cited sixty; cited sixty; uncited (txt "REPORT")])
    (raising_at 4) 1705314600 clock_reading.

(** The first step's generation call raises, and the callback raises at
    the error log event of that step (its fifth invocation). *)
Definition world_raises_at_step_failed : World :=
  mk_World (scripted [uncited two_steps; boom; cited sixty; uncited (txt "REPORT")])
    (raising_at 4) 1705314600 clock_reading.

(** Both steps would succeed, but the callback raises at the success log
    event of the first step (its seventh invocation). *)
Definition world_raises_at_verified : World :=
  mk_World (scripted [uncited two_steps; cited sixty; cited sixty; uncited (txt "REPORT")])
    (raising_at 6) 1705314600 clock_reading.

(** * Properties *)

(** ** Python helpers *)

Example format_percent0_95 : format_percent0 0.95 = txt "95%".
Proof. vm_compute. reflexivity. Qed.

Example format_percent0_75 : format_percent0 0.75 = txt "75%".
Proof. vm_compute. reflexivity. Qed.

Example split_lines :
  split newline (txt "a" ++ [newline] ++ [newline] ++ txt "b c")
  = [txt "a"; []; txt "b c"].
Proof. vm_compute. reflexivity. Qed.

Example isoformat_example :
  isoformat (mk_datetime 2024 3 9 7 5 1 0) = txt "2024-03-09T07:05:01".
Proof. vm_compute. reflexivity. Qed.

(** ** The execution log *)

Lemma execution_log_log_event st now ty msg data :
  execution_log (log_event st now ty msg data)
  = (if decide (500 ≤ length (execution_log st))
     then last_n 400 (execution_log st) else execution_log st)
    ++ [log_entry now ty msg data].
Proof.
  unfold log_event. destruct (decide (500 ≤ length (execution_log st))); reflexivity.
Qed.

Lemma length_last_n {A} (n : nat) (l : list A) :
  n ≤ length l -> length (last_n n l) = n.
Proof. intros H. unfold last_n. rewrite length_drop. lia. Qed.

Lemma last_n_suffix {A} (n : nat) (l : list A) : last_n n l `suffix_of` l.
Proof. apply suffix_drop. Qed.

Lemma length_log_event st now ty msg data :
  length (execution_log (log_event st now ty msg data))
  = if decide (500 ≤ length (execution_log st)) then 401
    else S (length (execution_log st)).
Proof.
  rewrite execution_log_log_event, length_app. simpl.
  destruct (decide (500 ≤ length (execution_log st))).
  - rewrite length_last_n by lia. reflexivity.
  - lia.
Qed.

Lemma log_events_bounded calls : forall st,
  length (execution_log st) ≤ 500 ->
  length (execution_log (log_events calls st)) ≤ 500.
Proof.
  induction calls as [|c calls IH]; intros st Hst; simpl; [exact Hst|].
  apply IH. rewrite length_log_event.
  destruct (decide (500 ≤ length (execution_log st))); lia.
Qed.

Lemma log_events_suffix calls : forall st history,
  execution_log st `suffix_of` history ->
  execution_log (log_events calls st)
    `suffix_of` history ++ (log_call_entry <$> calls).
Proof.
  induction calls as [|c calls IH]; intros st history Hst; simpl.
  - rewrite app_nil_r. exact Hst.
  - rewrite (cons_middle (log_call_entry c)), app_assoc.
    apply IH. rewrite execution_log_log_event.
    apply suffix_app.
    destruct (decide (500 ≤ length (execution_log st))); [|exact Hst].
    etrans; [apply last_n_suffix | exact Hst].
Qed.

(** C7: [log_event] appends the new entry at the end, after trimming a
    log of 500 or more entries to its last 400, so a log of exactly 500
    entries has 401 afterwards; starting from a fresh state, after any
    sequence of calls the log has at most 500 entries and is a suffix of
    the entries of those calls in call order. *)
Theorem log_event_capacity_bounded
    (st : WorkflowState) (now : datetime) (ty msg : str) (data : option dict)
    (calls : list log_call) (id task : str) (s0 : WorkflowStatus) :
  let log := execution_log st in
  let log' := execution_log (log_event st now ty msg data) in
  let fresh := new_WorkflowState id task s0 in
  log' = (if decide (500 ≤ length log) then drop (length log - 400) log else log)
         ++ [log_entry now ty msg data]
  ∧ length log' = (if decide (500 ≤ length log) then 401 else S (length log))
  ∧ length (execution_log (log_events calls fresh)) ≤ 500
  ∧ execution_log (log_events calls fresh) `suffix_of` (log_call_entry <$> calls).
Proof.
  simpl. split; [apply execution_log_log_event|].
  split; [apply length_log_event|]. split.
  - apply log_events_bounded. simpl. lia.
  - apply (log_events_suffix calls _ []). simpl. reflexivity.
Qed.

(** A log of exactly 500 entries has 401 after one more call. *)
Example log_event_at_500 :
  let st := set_execution_log (replicate 500 ∅) (new_WorkflowState [] [] PENDING) in
  length (execution_log (log_event st clock_reading (txt "info") (txt "m") None)) = 401.
Proof. vm_compute. reflexivity. Qed.

(** ** The validator *)

Lemma validator_typed (result context : dict) (s : str) (c : float) :
  default (VStr []) (result !! "output") = VStr s ->
  default (VFloat 0.5) (result !! "confidence") = VFloat c ->
  ValidatorAgent_execute result context
  = let verdict := bool_decide (50 < length s) && PrimFloat.ltb 0.6 c in
    Ok (mk_ValidationResult verdict (VFloat c)
          (if verdict then feedback_verified else feedback_rejected)).
Proof.
  intros Hout Hconf. unfold ValidatorAgent_execute.
  rewrite Hout, Hconf. simpl.
  destruct (decide (50 < length s)) as [Hlen|Hlen].
  - rewrite bool_decide_eq_true_2 by exact Hlen. reflexivity.
  - rewrite bool_decide_eq_false_2 by exact Hlen. reflexivity.
Qed.

(** C5: on a result whose output is a text and whose confidence is a
    float, the validator returns, without any call to the outside,
    [is_valid] true exactly when the output is longer than 50 and the
    confidence greater than 0.6 (so a length of exactly 50 is invalid),
    the input's confidence, and one of two fixed feedback texts chosen by
    the verdict. *)
Theorem validator_rule (result context : dict) (s : str) (c : float)
    (Hout : result !! "output" = Some (VStr s))
    (Hconf : result !! "confidence" = Some (VFloat c)) :
  exists v,
    ValidatorAgent_execute result context = Ok v
    ∧ (is_valid v = true ↔ 50 < length s ∧ PrimFloat.ltb 0.6 c = true)
    ∧ (length s = 50 -> is_valid v = false)
    ∧ confidence v = VFloat c
    ∧ feedback v = (if is_valid v then feedback_verified else feedback_rejected).
Proof.
  eexists. split.
  - apply (validator_typed result context s c); [rewrite Hout|rewrite Hconf]; reflexivity.
  - simpl. split; [|split; [|split; reflexivity]].
    + rewrite andb_true_iff, bool_decide_eq_true. reflexivity.
    + intros H50. rewrite bool_decide_eq_false_2 by lia. reflexivity.
Qed.

Lemma validator_rule_witness :
  exists v,
    ValidatorAgent_execute
      {[ "output" := VStr (replicate 50 120%N); "confidence" := VFloat 0.95 ]} ∅ = Ok v
    ∧ is_valid v = false.
Proof.
  assert (Hout : ({[ "output" := VStr (replicate 50 120%N);
                      "confidence" := VFloat 0.95 ]} : dict) !! "output"
                 = Some (VStr (replicate 50 120%N))) by (vm_compute; reflexivity).
  assert (Hconf : ({[ "output" := VStr (replicate 50 120%N);
                       "confidence" := VFloat 0.95 ]} : dict) !! "confidence"
                  = Some (VFloat 0.95)) by (vm_compute; reflexivity).
  destruct (validator_rule _ ∅ _ _ Hout Hconf) as (v & Hv & _ & H50 & _).
  exists v. split; [exact Hv|]. apply H50. reflexivity.
Defined.

Example validator_accepts_51 :
  is_valid <$> (match ValidatorAgent_execute
                  {[ "output" := VStr (replicate 51 120%N); "confidence" := VFloat 0.75 ]} ∅
                with Ok v => Some v | Raise _ => None end) = Some true.
Proof. vm_compute. reflexivity. Qed.

(** C10 as stated fails: a mapping whose [output] is [None] makes [len]
    raise [TypeError]. *)
Lemma validator_raises_on_unsized_output :
  ValidatorAgent_execute {[ "output" := VNone ]} ∅
  = Raise (Exception "TypeError" (txt "object of type 'NoneType' has no len()")).
Proof. vm_compute. reflexivity. Qed.

(** A confidence that does not compare with a float raises as well, once
    the output is long enough for the comparison to be evaluated. *)
Example validator_raises_on_text_confidence :
  ValidatorAgent_execute
    {[ "output" := VStr sixty; "confidence" := VStr (txt "high") ]} ∅
  = Raise (Exception "TypeError"
             (txt "'>' not supported between instances of 'str' and 'float'")).
Proof. vm_compute. reflexivity. Qed.

(** C10, amended: on a mapping whose [output], when present, is a text
    and whose [confidence], when present, is a float, the validator
    returns; a missing [output] counts as the empty text and a missing
    [confidence] as 0.5, in either case the verdict is invalid, and the
    returned confidence is the input's, or the default. *)
Theorem validator_total_on_typed (result context : dict) (s : str) (c : float)
    (Hout : default (VStr []) (result !! "output") = VStr s)
    (Hconf : default (VFloat 0.5) (result !! "confidence") = VFloat c) :
  exists v,
    ValidatorAgent_execute result context = Ok v
    ∧ is_valid v = bool_decide (50 < length s) && PrimFloat.ltb 0.6 c
    ∧ confidence v = default (VFloat 0.5) (result !! "confidence")
    ∧ (result !! "output" = None -> s = [] ∧ is_valid v = false)
    ∧ (result !! "confidence" = None -> c = 0.5%float ∧ is_valid v = false).
Proof.
  eexists. split; [apply (validator_typed result context s c Hout Hconf)|].
  simpl. split; [reflexivity|]. split; [symmetry; exact Hconf|]. split.
  - intros Hnone. rewrite Hnone in Hout. simpl in Hout.
    injection Hout as <-. split; reflexivity.
  - intros Hnone. rewrite Hnone in Hconf. simpl in Hconf.
    injection Hconf as <-. split; [reflexivity|]. apply andb_false_r.
Qed.

Lemma validator_total_on_typed_witness :
  exists v,
    ValidatorAgent_execute {[ "output" := VStr sixty ]} ∅ = Ok v
    ∧ is_valid v = false ∧ confidence v = VFloat 0.5.
Proof.
  assert (Hout : default (VStr []) (({[ "output" := VStr sixty ]} : dict) !! "output")
                 = VStr sixty) by (vm_compute; reflexivity).
  assert (Hconf : default (VFloat 0.5)
                    (({[ "output" := VStr sixty ]} : dict) !! "confidence")
                  = VFloat 0.5) by (vm_compute; reflexivity).
  destruct (validator_total_on_typed _ ∅ _ _ Hout Hconf)
    as (v & Hv & _ & Hc & _ & Hnone).
  exists v. split; [exact Hv|].
  split; [apply Hnone; vm_compute; reflexivity | exact Hc].
Defined.

(** ** The agents *)

Lemma bind_run {A B} (m : M A) (k : A -> M B) (r : Run) :
  (m ≫= k) r = match m r with
               | (Ok a, r') => k a r'
               | (Raise e, r') => (Raise e, r')
               end.
Proof. reflexivity. Qed.

Lemma PlannerAgent_execute_spec w task context r :
  PlannerAgent_execute w task context r
  = (Ok (planner_result (co_chat w (chats r) (planner_request task))),
     perform (Chat (planner_request task)) r).
Proof.
  unfold PlannerAgent_execute. rewrite bind_run.
  unfold try_except. rewrite bind_run. unfold chat, planner_result.
  destruct (co_chat w (chats r) (planner_request task)); reflexivity.
Qed.

Lemma ExecutorAgent_execute_spec w step context r :
  ExecutorAgent_execute w step context r
  = (Ok (executor_result (co_chat w (chats r) (executor_request step))),
     perform (Chat (executor_request step)) r).
Proof.
  unfold ExecutorAgent_execute, try_except. rewrite bind_run.
  unfold chat, executor_result.
  destruct (co_chat w (chats r) (executor_request step)) as [response|e];
    [|reflexivity].
  destruct (citations response) as [[|c cs]|]; reflexivity.
Qed.

(** C6: when the planner's generation call raises, [PlannerAgent.execute]
    returns the fixed three-step plan with complexity "medium"; nothing
    is raised to the caller. *)
Theorem planner_fallback (w : World) (task : str) (context : dict) (r : Run) (e : exn)
    (Hfails : co_chat w (chats r) (planner_request task) = Raises e) :
  PlannerAgent_execute w task context r
  = (Ok (mk_Plan [txt "Research the topic overview";
                  txt "Analyze key trends and data";
                  txt "Synthesize findings"]
           (txt "medium") (txt "plan")),
     perform (Chat (planner_request task)) r).
Proof. rewrite PlannerAgent_execute_spec, Hfails. reflexivity. Qed.

Lemma planner_fallback_witness :
  fst (PlannerAgent_execute (scripted_world [boom]) the_task ∅
         (initial_run (scripted_world [boom]) the_task))
  = Ok (mk_Plan [txt "Research the topic overview";
                 txt "Analyze key trends and data";
                 txt "Synthesize findings"]
          (txt "medium") (txt "plan")).
Proof.
  rewrite (planner_fallback (scripted_world [boom]) the_task ∅ _
             (Exception "RuntimeError" (txt "timeout"))).
  - reflexivity.
  - reflexivity.
Defined.

(** The planner on a response: lines are trimmed, bullets removed and
    blank lines dropped; more than three steps make the plan "high". *)
Example planner_parses :
  planner_result
    (uncited (txt "- Find sources" ++ [newline] ++ txt "  " ++ [newline]
              ++ txt " - Read them " ++ [newline] ++ txt "Compare"
              ++ [newline] ++ txt "- Write up"))
  = mk_Plan [txt "Find sources"; txt "Read them"; txt "Compare"; txt "Write up"]
      (txt "high") (txt "plan").
Proof. vm_compute. reflexivity. Qed.

(** C8 as stated fails: the result of a failed call has no [citations]
    key. *)
Lemma executor_failure_has_no_citations :
  let res := fst (ExecutorAgent_execute (scripted_world [boom]) (txt "Step A") ∅
                    (initial_run (scripted_world [boom]) the_task)) in
  res = Ok (mk_StepResult (txt "failed") (txt "timeout") 0.0 None)
  ∧ StepResult_dict (mk_StepResult (txt "failed") (txt "timeout") 0.0 None)
      !! "citations" = None.
Proof. split; vm_compute; reflexivity. Qed.

Lemma StepResult_dict_success t c cs :
  StepResult_dict (mk_StepResult (txt "success") t c (Some cs))
  = {[ "status" := VStr (txt "success"); "output" := VStr t;
       "confidence" := VFloat c; "citations" := VList cs ]}.
Proof.
  unfold StepResult_dict. simpl.
  apply map_eq. intros k.
  destruct (decide (k = "citations")) as [->|Hc];
    [rewrite lookup_insert_eq; vm_compute; reflexivity|].
  rewrite lookup_insert_ne by congruence.
  destruct (decide (k = "status")) as [->|Hs]; [vm_compute; reflexivity|].
  destruct (decide (k = "output")) as [->|Ho]; [vm_compute; reflexivity|].
  destruct (decide (k = "confidence")) as [->|Hf]; [vm_compute; reflexivity|].
  rewrite !lookup_insert_ne, !lookup_singleton_ne by congruence.
  reflexivity.
Qed.

(** C8, amended: [ExecutorAgent.execute] always returns and never raises.
    When the generation call returns, the result is the dictionary with
    status "success", the response text, confidence 0.95 if the response
    has one or more citations and 0.75 otherwise, and the citations (the
    empty list if there are none or the attribute is missing).  When the
    call raises, the result has exactly the three keys status "failed",
    output the error text and confidence 0.0, and no citations key. *)
Theorem executor_result_shape (w : World) (step : str) (context : dict) (r : Run) :
  exists res,
    ExecutorAgent_execute w step context r
    = (Ok res, perform (Chat (executor_request step)) r)
    ∧ match co_chat w (chats r) (executor_request step) with
      | Returns response =>
          let cs := default [] (citations response) in
          StepResult_dict res
          = {[ "status" := VStr (txt "success");
               "output" := VStr (text response);
               "confidence" := VFloat (if decide (0 < length cs) then 0.95 else 0.75);
               "citations" := VList cs ]}
      | Raises e =>
          StepResult_dict res
          = {[ "status" := VStr (txt "failed");
               "output" := VStr (exn_str e);
               "confidence" := VFloat 0.0 ]}
      end.
Proof.
  eexists. split; [apply ExecutorAgent_execute_spec|].
  destruct (co_chat w (chats r) (executor_request step)) as [response|e];
    [|reflexivity].
  unfold executor_result.
  destruct (citations response) as [[|c cs]|]; apply StepResult_dict_success.
Qed.

(** ** The control loop when the callback returns *)

Lemma StepResult_dict_output res :
  StepResult_dict res !! "output" = Some (VStr (sr_output res)).
Proof.
  unfold StepResult_dict. destruct (sr_citations res);
    rewrite ?(lookup_insert_ne _ "citations") by done;
    rewrite (lookup_insert_ne _ "status") by done;
    apply lookup_insert_eq.
Qed.

Lemma StepResult_dict_confidence res :
  StepResult_dict res !! "confidence" = Some (VFloat (sr_confidence res)).
Proof.
  unfold StepResult_dict. destruct (sr_citations res);
    rewrite ?(lookup_insert_ne _ "citations") by done;
    rewrite (lookup_insert_ne _ "status"), (lookup_insert_ne _ "output") by done;
    apply lookup_singleton_eq.
Qed.

Lemma validator_on_result res context :
  ValidatorAgent_execute (StepResult_dict res) context = Ok (validation_of res).
Proof.
  apply validator_typed.
  - rewrite StepResult_dict_output. reflexivity.
  - rewrite StepResult_dict_confidence. reflexivity.
Qed.

Lemma agent_planner_spec w task r :
  agent_planner w task r
  = (Ok (planner_result (co_chat w (chats r) (planner_request task))),
     perform_all [Invoke "planner" (VStr task); Chat (planner_request task)] r).
Proof.
  unfold agent_planner. rewrite bind_run. unfold act.
  rewrite PlannerAgent_execute_spec. reflexivity.
Qed.

Lemma agent_executor_spec w step r :
  agent_executor w step r
  = (Ok (step_result w (chats r) step),
     perform_all [Invoke "executor" (VStr step); Chat (executor_request step)] r).
Proof.
  unfold agent_executor. rewrite bind_run. unfold act.
  rewrite ExecutorAgent_execute_spec. reflexivity.
Qed.

Lemma agent_validator_spec res r :
  agent_validator (StepResult_dict res) r
  = (Ok (validation_of res),
     perform (Invoke "validator" (VDict (StepResult_dict res))) r).
Proof.
  unfold agent_validator. rewrite bind_run. unfold act, lift.
  rewrite validator_on_result. reflexivity.
Qed.

Lemma perform_all_app acts1 acts2 r :
  perform_all (acts1 ++ acts2) r = perform_all acts2 (perform_all acts1 r).
Proof. apply fold_left_app. Qed.

Lemma trace_perform_all acts : forall r,
  trace (perform_all acts r) = trace r ++ acts.
Proof.
  induction acts as [|a acts IH]; intros r; simpl.
  - rewrite app_nil_r. reflexivity.
  - rewrite IH. simpl. rewrite <- app_assoc. reflexivity.
Qed.

Lemma chats_step_actions i step res r :
  chats (perform_all (step_actions i step res) r) = S (chats r).
Proof.
  unfold step_actions. destruct (failed res); [reflexivity|].
  destruct (is_valid (validation_of res)); reflexivity.
Qed.

Section Returning.
Context (w : World) (Hcb : callback_returns w).

Lemma emit_returns type_ msg role node r :
  emit w type_ msg role node r = (Ok tt, perform (event type_ msg role node) r).
Proof. unfold emit, call_event_callback. rewrite Hcb. reflexivity. Qed.

Lemma loop_body_spec i step acc r :
  loop_body w i step acc r
  = (Ok (acc ++ step_report step (step_result w (chats r) step)),
     perform_all (step_actions i step (step_result w (chats r) step)) r).
Proof.
  unfold loop_body. rewrite bind_run, emit_returns.
  rewrite bind_run, agent_executor_spec.
  change (chats (perform _ r)) with (chats r).
  set (res := step_result w (chats r) step).
  unfold step_actions, step_report, failed.
  destruct (decide (sr_status res = txt "failed")) as [Hf|Hf].
  - rewrite bool_decide_eq_true_2 by exact Hf.
    rewrite bind_run, emit_returns. rewrite app_nil_r. reflexivity.
  - rewrite bool_decide_eq_false_2 by exact Hf.
    rewrite bind_run, emit_returns.
    rewrite bind_run, agent_validator_spec.
    rewrite bind_run, emit_returns. rewrite bind_run. unfold sleep, act.
    destruct (is_valid (validation_of res)); rewrite bind_run, emit_returns;
      reflexivity.
Qed.

Lemma for_steps_spec steps : forall i acc r,
  for_steps w i steps acc r
  = (Ok (acc ++ loop_report w (chats r) steps),
     perform_all (loop_actions w (chats r) i steps) r).
Proof.
  induction steps as [|step rest IH]; intros i acc r;
    cbn [for_steps loop_actions loop_report].
  - rewrite app_nil_r. reflexivity.
  - rewrite bind_run, loop_body_spec, IH.
    rewrite chats_step_actions, perform_all_app, <- app_assoc. reflexivity.
Qed.

Lemma chats_loop_actions steps : forall k i r,
  chats r = k ->
  chats (perform_all (loop_actions w k i steps) r) = k + length steps.
Proof.
  induction steps as [|step rest IH]; intros k i r Hk;
    cbn [loop_actions length].
  - simpl. lia.
  - rewrite perform_all_app, (IH (S k)); [lia|].
    rewrite chats_step_actions, Hk. reflexivity.
Qed.

Lemma execute_workflow_spec task :
  execute_workflow w task
  = (Ok tt, perform_all (run_actions w task) (initial_run w task)).
Proof.
  unfold execute_workflow, try_except, workflow_body.
  rewrite bind_run, emit_returns. rewrite bind_run. unfold act at 1.
  rewrite bind_run, emit_returns. rewrite bind_run, agent_planner_spec.
  change (chats (perform _ (perform _ (perform _ (initial_run w task))))) with 0.
  fold (run_plan w task).
  rewrite bind_run. unfold act at 1.
  rewrite bind_run, emit_returns. rewrite bind_run. unfold sleep, act at 1.
  rewrite bind_run, for_steps_spec.
  match goal with
  | |- context [perform_all (loop_actions w ?k 0 _) ?r] =>
      change k with 1; set (r1 := r)
  end.
  rewrite bind_run, emit_returns. rewrite bind_run. unfold chat.
  change (chats (perform ?a (perform_all ?l r1)))
    with (chats (perform_all l r1)).
  rewrite (chats_loop_actions _ 1 0 r1 eq_refl).
  unfold run_actions, run_prologue, run_epilogue, synthesis_outcome,
    synthesis_request.
  rewrite !perform_all_app. simpl ([] ++ _). simpl (1 + _).
  destruct (co_chat w (S (length (steps (run_plan w task)))) _) as [response|e].
  - rewrite bind_run. unfold finish_event. rewrite emit_returns. reflexivity.
  - unfold workflow_handler. rewrite bind_run. unfold critical_event.
    rewrite emit_returns. reflexivity.
Qed.

End Returning.

(** ** Counting events *)

Lemma count_app p t1 t2 : count p (t1 ++ t2) = count p t1 + count p t2.
Proof. unfold count. rewrite filter_app, length_app. reflexivity. Qed.

Lemma count_executing_step i step res :
  count (is_activate "executor") (step_actions i step res) = 1.
Proof.
  unfold step_actions. destruct (failed res); [vm_compute; reflexivity|].
  destruct (is_valid (validation_of res)); vm_compute; reflexivity.
Qed.

Lemma count_decision_step i step res :
  count (is_activate "decision") (step_actions i step res)
  = if failed res then 0 else 1.
Proof.
  unfold step_actions. destruct (failed res); [vm_compute; reflexivity|].
  destruct (is_valid (validation_of res)); vm_compute; reflexivity.
Qed.

Lemma count_validator_step i step res :
  count is_validator_call (step_actions i step res)
  = if failed res then 0 else 1.
Proof.
  unfold step_actions. destruct (failed res); [vm_compute; reflexivity|].
  destruct (is_valid (validation_of res)); vm_compute; reflexivity.
Qed.

Lemma count_executing_loop w steps : forall k i,
  count (is_activate "executor") (loop_actions w k i steps) = length steps.
Proof.
  induction steps as [|step rest IH]; intros k i; cbn [loop_actions length].
  - reflexivity.
  - rewrite count_app, count_executing_step, IH. reflexivity.
Qed.

Lemma count_decision_loop_le w steps : forall k i,
  count (is_activate "decision") (loop_actions w k i steps) ≤ length steps.
Proof.
  induction steps as [|step rest IH]; intros k i; cbn [loop_actions length].
  - reflexivity.
  - rewrite count_app, count_decision_step. specialize (IH (S k) (S i)).
    destruct (failed (step_result w k step)); lia.
Qed.

Lemma failed_iff res : failed res = true ↔ sr_status res = txt "failed".
Proof. unfold failed. apply bool_decide_eq_true. Qed.

Lemma count_decision_loop_lt w steps : forall k i,
  count (is_activate "decision") (loop_actions w k i steps) < length steps
  ↔ exists j step, steps !! j = Some step
                   ∧ sr_status (step_result w (k + j) step) = txt "failed".
Proof.
  induction steps as [|step rest IH]; intros k i; cbn [loop_actions length].
  - split; [simpl; lia|]. intros (j & step & Hj & _). discriminate Hj.
  - rewrite count_app, count_decision_step.
    pose proof (count_decision_loop_le w rest (S k) (S i)) as Hle.
    destruct (failed (step_result w k step)) eqn:Hf.
    + split; [|lia]. intros _. exists 0, step.
      split; [reflexivity|]. rewrite Nat.add_0_r. apply failed_iff, Hf.
    + split.
      * intros Hlt. destruct (proj1 (IH (S k) (S i))) as (j & s & Hj & Hs); [lia|].
        exists (S j), s. split; [exact Hj|].
        rewrite Nat.add_succ_r. exact Hs.
      * intros (j & s & Hj & Hs). destruct j as [|j].
        -- injection Hj as <-. rewrite Nat.add_0_r in Hs.
           apply failed_iff in Hs. congruence.
        -- assert (count (is_activate "decision") (loop_actions w (S k) (S i) rest)
                   < length rest); [|lia].
           apply IH. exists j, s. split; [exact Hj|].
           rewrite Nat.add_succ_r in Hs. exact Hs.
Qed.

Lemma count_prologue_executor w task :
  count (is_activate "executor") (run_prologue w task) = 0.
Proof. vm_compute. reflexivity. Qed.

Lemma count_prologue_decision w task :
  count (is_activate "decision") (run_prologue w task) = 0.
Proof. vm_compute. reflexivity. Qed.

Lemma count_epilogue_executor w task :
  count (is_activate "executor") (run_epilogue w task) = 0.
Proof.
  unfold run_epilogue. destruct (synthesis_outcome w task); vm_compute; reflexivity.
Qed.

Lemma count_epilogue_decision w task :
  count (is_activate "decision") (run_epilogue w task) = 0.
Proof.
  unfold run_epilogue. destruct (synthesis_outcome w task); vm_compute; reflexivity.
Qed.

Lemma count_validator_loop w steps : forall k i,
  count is_validator_call (loop_actions w k i steps)
  = count (is_activate "decision") (loop_actions w k i steps).
Proof.
  induction steps as [|step rest IH]; intros k i; cbn [loop_actions].
  - reflexivity.
  - rewrite !count_app, count_validator_step, count_decision_step, IH.
    reflexivity.
Qed.

Lemma count_validator_run w task :
  count is_validator_call (run_actions w task)
  = count (is_activate "decision") (run_actions w task).
Proof.
  unfold run_actions. rewrite !count_app, count_validator_loop.
  rewrite count_prologue_decision, count_epilogue_decision.
  assert (Hp : count is_validator_call (run_prologue w task) = 0)
    by (vm_compute; reflexivity).
  assert (He : count is_validator_call (run_epilogue w task) = 0).
  { unfold run_epilogue.
    destruct (synthesis_outcome w task); vm_compute; reflexivity. }
  rewrite Hp, He. reflexivity.
Qed.

Lemma trace_execute_workflow w task :
  callback_returns w ->
  trace (execute_workflow w task).2 = run_actions w task.
Proof.
  intros Hcb. rewrite (execute_workflow_spec w Hcb). simpl.
  rewrite trace_perform_all. reflexivity.
Qed.

Lemma callbacks_perform_all acts : forall r,
  callbacks (perform_all acts r) = callbacks r + length (events acts).
Proof.
  induction acts as [|a acts IH]; intros r; simpl; [lia|].
  rewrite IH. destruct a; simpl; lia.
Qed.

(** C2 as stated fails: the plan has two steps and neither fails, but
    the callback raises at the "Verifying" event of the first one; the
    run then delivers one "Executing" event and no quality-gate event. *)
Lemma raising_callback_cuts_events :
  let w := world_raises_at_verifying in
  let run := (execute_workflow w the_task).2 in
  steps (run_plan w the_task) = [txt "Step A"; txt "Step B"]
  ∧ sr_status (step_result w 1 (txt "Step A")) = txt "success"
  ∧ sr_status (step_result w 2 (txt "Step B")) = txt "success"
  ∧ count (is_activate "executor") (trace run) = 1
  ∧ count (is_activate "decision") (trace run) = 0.
Proof. cbv zeta. split_and!; vm_compute; reflexivity. Qed.

(** C2, amended: when the callback returns at every invocation, a run
    whose plan has N steps delivers exactly N "Executing" activate events
    and at most N quality-gate activate events, fewer exactly when the
    executor result of some step is failed; the callback is invoked once
    per emitted event, in the order of emission. *)
Theorem event_counts (w : World) (task : str) (Hcb : callback_returns w) :
  let plan_steps := steps (run_plan w task) in
  let run := (execute_workflow w task).2 in
  count (is_activate "executor") (trace run) = length plan_steps
  ∧ count (is_activate "decision") (trace run) ≤ length plan_steps
  ∧ (count (is_activate "decision") (trace run) < length plan_steps
     ↔ exists j step, plan_steps !! j = Some step
                      ∧ sr_status (step_result w (S j) step) = txt "failed")
  ∧ trace run = run_actions w task
  ∧ callbacks run = length (events (run_actions w task)).
Proof.
  simpl. rewrite (trace_execute_workflow w task Hcb).
  unfold run_actions. rewrite !count_app.
  rewrite count_prologue_executor, count_prologue_decision,
    count_epilogue_executor, count_epilogue_decision, count_executing_loop.
  split; [lia|].
  pose proof (count_decision_loop_le w (steps (run_plan w task)) 1 0) as Hle.
  split; [lia|]. split.
  - rewrite <- (count_decision_loop_lt w (steps (run_plan w task)) 1 0). lia.
  - split; [reflexivity|].
    rewrite (execute_workflow_spec w Hcb). simpl.
    rewrite callbacks_perform_all. reflexivity.
Qed.

Lemma callback_returns_scripted outcomes : callback_returns (scripted_world outcomes).
Proof. intros k type_ payload. reflexivity. Qed.

Lemma event_counts_witness :
  let run := (execute_workflow world_step_fails the_task).2 in
  count (is_activate "executor") (trace run) = 2
  ∧ count (is_activate "decision") (trace run) < 2.
Proof.
  destruct (event_counts world_step_fails the_task (callback_returns_scripted _))
    as (Hexec & _ & Hlt & _).
  split.
  - rewrite Hexec. vm_compute. reflexivity.
  - assert (Hlen : length (steps (run_plan world_step_fails the_task)) = 2)
      by (vm_compute; reflexivity).
    rewrite <- Hlen. apply Hlt. exists 0, (txt "Step A").
    split; vm_compute; reflexivity.
Defined.

(** ** One iteration inside a run *)

Lemma loop_actions_at w steps : forall k i j step,
  steps !! j = Some step ->
  loop_actions w k i steps
  = loop_actions w k i (take j steps)
    ++ step_actions (i + j) step (step_result w (k + j) step)
    ++ loop_actions w (S (k + j)) (S (i + j)) (drop (S j) steps).
Proof.
  induction steps as [|s rest IH]; intros k i j step Hj; [discriminate Hj|].
  destruct j as [|j].
  - injection Hj as ->. rewrite !Nat.add_0_r. reflexivity.
  - cbn [take drop loop_actions]. rewrite (IH (S k) (S i) j step Hj).
    rewrite !Nat.add_succ_r, <- app_assoc. reflexivity.
Qed.

Lemma loop_report_at w steps : forall k j step,
  steps !! j = Some step ->
  loop_report w k steps
  = loop_report w k (take j steps)
    ++ step_report step (step_result w (k + j) step)
    ++ loop_report w (S (k + j)) (drop (S j) steps).
Proof.
  induction steps as [|s rest IH]; intros k j step Hj; [discriminate Hj|].
  destruct j as [|j].
  - injection Hj as ->. rewrite !Nat.add_0_r. reflexivity.
  - cbn [take drop loop_report]. rewrite (IH (S k) j step Hj).
    rewrite !Nat.add_succ_r, <- app_assoc. reflexivity.
Qed.

(** The trace of a run around iteration [j], and the report context the
    synthesis request is built from. *)
Lemma run_at_step w task j step :
  callback_returns w ->
  steps (run_plan w task) !! j = Some step ->
  let plan_steps := steps (run_plan w task) in
  let res := step_result w (S j) step in
  trace (execute_workflow w task).2
  = (run_prologue w task ++ loop_actions w 1 0 (take j plan_steps))
    ++ step_actions j step res
    ++ loop_actions w (S (S j)) (S j) (drop (S j) plan_steps)
    ++ run_epilogue w task
  ∧ message (synthesis_request w task)
    = final_prompt task
        (join [newline]
           (loop_report w 1 (take j plan_steps)
            ++ step_report step res
            ++ loop_report w (S (S j)) (drop (S j) plan_steps)))
  ∧ Chat (synthesis_request w task) ∈ run_epilogue w task.
Proof.
  intros Hcb Hj. simpl. split; [|split].
  - rewrite (trace_execute_workflow w task Hcb). unfold run_actions.
    rewrite (loop_actions_at w _ 1 0 j step Hj).
    rewrite <- !app_assoc. reflexivity.
  - unfold synthesis_request. rewrite (loop_report_at w _ 1 j step Hj).
    reflexivity.
  - unfold run_epilogue. set_solver.
Qed.

(** C3 as stated fails: the first step's result is failed and the
    callback raises at its error log event; the run does not go on to
    the second step: there is one "Executing" event, two generation
    calls (the planner's and the first step's) and, last, the handler's
    log event. *)
Lemma raising_callback_ends_run_at_failed_step :
  let w := world_raises_at_step_failed in
  let out := execute_workflow w the_task in
  steps (run_plan w the_task) = [txt "Step A"; txt "Step B"]
  ∧ sr_status (step_result w 1 (txt "Step A")) = txt "failed"
  ∧ count (is_activate "executor") (trace out.2) = 1
  ∧ chats out.2 = 2
  ∧ event_summary <$> events (trace out.2)
    = [(txt "status", Some (VStr (txt "start")), Some info);
       (txt "activate", Some (VStr (txt "planner")), Some info);
       (txt "log", Some VNone, Some (VStr (txt "planner")));
       (txt "activate", Some (VStr (txt "executor")), Some info);
       (txt "log", Some VNone, Some (VStr (txt "error")));
       (txt "log", Some VNone, Some (VStr (txt "error")))]
  ∧ status (state out.2) = FAILED.
Proof. cbv zeta. split_and!; vm_compute; reflexivity. Qed.

(** C3, amended: when the callback returns at every invocation and the
    executor result of a step is failed, that iteration emits the
    "Executing" event and an error log event and nothing else: the
    validator is not
    invoked (in the whole run it is invoked once per quality-gate event),
    no quality-gate event is emitted and nothing is added to the report
    context, which holds only what the other steps contribute;
    the run goes on with the following steps and the synthesis call. *)
Theorem failed_step_is_skipped (w : World) (task : str) (j : nat) (step : str)
    (Hcb : callback_returns w)
    (Hstep : steps (run_plan w task) !! j = Some step)
    (Hfailed : sr_status (step_result w (S j) step) = txt "failed") :
  let plan_steps := steps (run_plan w task) in
  let res := step_result w (S j) step in
  let iteration :=
    [executing_event step; Invoke "executor" (VStr step);
     Chat (executor_request step); step_failed_event res] in
  trace (execute_workflow w task).2
  = (run_prologue w task ++ loop_actions w 1 0 (take j plan_steps))
    ++ iteration
    ++ loop_actions w (S (S j)) (S j) (drop (S j) plan_steps)
    ++ run_epilogue w task
  ∧ count is_validator_call iteration = 0
  ∧ count (is_activate "decision") iteration = 0
  ∧ count is_validator_call (trace (execute_workflow w task).2)
    = count (is_activate "decision") (trace (execute_workflow w task).2)
  ∧ message (synthesis_request w task)
    = final_prompt task
        (join [newline]
           (loop_report w 1 (take j plan_steps)
            ++ loop_report w (S (S j)) (drop (S j) plan_steps)))
  ∧ Chat (synthesis_request w task) ∈ run_epilogue w task
  ∧ (exists m, step_failed_event res
               = event (txt "log") (VStr m) (VStr (txt "error")) VNone).
Proof.
  simpl. destruct (run_at_step w task j step Hcb Hstep) as (Htrace & Hmsg & Hin).
  apply failed_iff in Hfailed.
  unfold step_actions, step_report in Htrace, Hmsg. rewrite Hfailed in Htrace, Hmsg.
  split; [exact Htrace|]. split; [vm_compute; reflexivity|].
  split; [vm_compute; reflexivity|].
  split; [rewrite (trace_execute_workflow w task Hcb); apply count_validator_run|].
  split; [exact Hmsg|]. split; [exact Hin|].
  eexists. reflexivity.
Qed.

(** C4 as stated fails: the first step's execution succeeds and its
    result is valid, but the callback raises at the success log event,
    which precedes the append: the iteration raises instead of returning
    the extended report context, no synthesis call is made (there are
    two generation calls, the planner's and the first step's) and no
    finish event is emitted. *)
Lemma raising_callback_drops_successful_step :
  let w := world_raises_at_verified in
  let out := execute_workflow w the_task in
  let at_loop := perform_all (run_prologue w the_task) (initial_run w the_task) in
  sr_status (step_result w 1 (txt "Step A")) = txt "success"
  ∧ is_valid (validation_of (step_result w 1 (txt "Step A"))) = true
  ∧ (loop_body w 0 (txt "Step A") [] at_loop).1
    = Raise (Exception "BrokenPipeError" (txt "client went away"))
  ∧ chats out.2 = 2
  ∧ event_summary <$> events (trace out.2)
    = [(txt "status", Some (VStr (txt "start")), Some info);
       (txt "activate", Some (VStr (txt "planner")), Some info);
       (txt "log", Some VNone, Some (VStr (txt "planner")));
       (txt "activate", Some (VStr (txt "executor")), Some info);
       (txt "activate", Some (VStr (txt "validator")), Some info);
       (txt "activate", Some (VStr (txt "decision")), Some info);
       (txt "log", Some VNone, Some (VStr (txt "success")));
       (txt "log", Some VNone, Some (VStr (txt "error")))]
  ∧ status (state out.2) = FAILED.
Proof. cbv zeta. split_and!; vm_compute; reflexivity. Qed.

(** C4, amended: when the callback returns at every invocation and the
    executor result of a step is not failed, the iteration invokes the
    validator,
    emits the quality-gate event and then one log event, with role
    success if the verdict is valid and warning otherwise; in both cases
    the same section, the step's heading and output, is added to the
    report context the synthesis request is built from. *)
Theorem validated_step_is_included (w : World) (task : str) (j : nat) (step : str)
    (Hcb : callback_returns w)
    (Hstep : steps (run_plan w task) !! j = Some step)
    (Hsuccess : sr_status (step_result w (S j) step) ≠ txt "failed") :
  let plan_steps := steps (run_plan w task) in
  let res := step_result w (S j) step in
  let iteration (log : action) :=
    [executing_event step; Invoke "executor" (VStr step);
     Chat (executor_request step); verifying_event;
     Invoke "validator" (VDict (StepResult_dict res)); decision_event;
     Sleep 0.5; log] in
  trace (execute_workflow w task).2
  = (run_prologue w task ++ loop_actions w 1 0 (take j plan_steps))
    ++ iteration (if is_valid (validation_of res) then verified_event j res
                  else warning_event res)
    ++ loop_actions w (S (S j)) (S j) (drop (S j) plan_steps)
    ++ run_epilogue w task
  ∧ message (synthesis_request w task)
    = final_prompt task
        (join [newline]
           (loop_report w 1 (take j plan_steps)
            ++ [txt "### " ++ step ++ [newline] ++ sr_output res ++ [newline]]
            ++ loop_report w (S (S j)) (drop (S j) plan_steps)))
  ∧ Chat (synthesis_request w task) ∈ run_epilogue w task
  ∧ (exists m, verified_event j res
               = event (txt "log") (VStr m) (VStr (txt "success")) VNone)
  ∧ (exists m, warning_event res
               = event (txt "log") (VStr m) (VStr (txt "warning")) VNone).
Proof.
  simpl. destruct (run_at_step w task j step Hcb Hstep) as (Htrace & Hmsg & Hin).
  assert (Hf : failed (step_result w (S j) step) = false).
  { destruct (failed _) eqn:Hf; [|reflexivity].
    apply failed_iff in Hf. contradiction. }
  unfold step_actions, step_report in Htrace, Hmsg. rewrite Hf in Htrace, Hmsg.
  split; [exact Htrace|]. split; [exact Hmsg|]. split; [exact Hin|].
  split; eexists; reflexivity.
Qed.

Lemma failed_step_is_skipped_witness :
  message (synthesis_request world_step_fails the_task)
  = final_prompt the_task (txt "### Step B" ++ [newline] ++ sixty ++ [newline]).
Proof.
  assert (Hstep : steps (run_plan world_step_fails the_task) !! 0
                  = Some (txt "Step A")) by (vm_compute; reflexivity).
  assert (Hfailed : sr_status (step_result world_step_fails 1 (txt "Step A"))
                    = txt "failed") by (vm_compute; reflexivity).
  destruct (failed_step_is_skipped world_step_fails the_task 0 (txt "Step A")
              (callback_returns_scripted _) Hstep Hfailed)
    as (_ & _ & _ & _ & Hmsg & _).
  rewrite Hmsg. vm_compute. reflexivity.
Defined.

Lemma validated_step_is_included_witness :
  message (synthesis_request world_synthesis_fails the_task)
  = final_prompt the_task
      (txt "### Step A" ++ [newline] ++ sixty ++ [newline; newline]
       ++ txt "### Step B" ++ [newline] ++ txt "short" ++ [newline]).
Proof.
  assert (Hstep : steps (run_plan world_synthesis_fails the_task) !! 1
                  = Some (txt "Step B")) by (vm_compute; reflexivity).
  assert (Hsuccess : sr_status (step_result world_synthesis_fails 2 (txt "Step B"))
                     ≠ txt "failed") by (vm_compute; discriminate).
  destruct (validated_step_is_included world_synthesis_fails the_task 1
              (txt "Step B") (callback_returns_scripted _) Hstep Hsuccess)
    as (_ & Hmsg & _).
  rewrite Hmsg. vm_compute. reflexivity.
Defined.

(** Both steps succeed and synthesis returns: thirteen events, the last
    one the finish event, and the status is [COMPLETED]. *)
Example run_completes :
  let out := execute_workflow world_ok the_task in
  out.1 = Ok tt
  ∧ status (state out.2) = COMPLETED
  ∧ total_steps (state out.2) = 2
  ∧ event_summary <$> events (trace out.2)
    = [(txt "status", Some (VStr (txt "start")), Some info);
       (txt "activate", Some (VStr (txt "planner")), Some info);
       (txt "log", Some VNone, Some (VStr (txt "planner")));
       (txt "activate", Some (VStr (txt "executor")), Some info);
       (txt "activate", Some (VStr (txt "validator")), Some info);
       (txt "activate", Some (VStr (txt "decision")), Some info);
       (txt "log", Some VNone, Some (VStr (txt "success")));
       (txt "activate", Some (VStr (txt "executor")), Some info);
       (txt "activate", Some (VStr (txt "validator")), Some info);
       (txt "activate", Some (VStr (txt "decision")), Some info);
       (txt "log", Some VNone, Some (VStr (txt "success")));
       (txt "activate", Some (VStr (txt "end")), Some info);
       (txt "finish", Some VNone, Some info)].
Proof. repeat split; vm_compute; reflexivity. Qed.

(** The first step's call raises: no validator or quality-gate event for
    it, an error log, and the run still finishes. *)
Example run_skips_failed_step :
  let out := execute_workflow world_step_fails the_task in
  status (state out.2) = COMPLETED
  ∧ event_summary <$> events (trace out.2)
    = [(txt "status", Some (VStr (txt "start")), Some info);
       (txt "activate", Some (VStr (txt "planner")), Some info);
       (txt "log", Some VNone, Some (VStr (txt "planner")));
       (txt "activate", Some (VStr (txt "executor")), Some info);
       (txt "log", Some VNone, Some (VStr (txt "error")));
       (txt "activate", Some (VStr (txt "executor")), Some info);
       (txt "activate", Some (VStr (txt "validator")), Some info);
       (txt "activate", Some (VStr (txt "decision")), Some info);
       (txt "log", Some VNone, Some (VStr (txt "success")));
       (txt "activate", Some (VStr (txt "end")), Some info);
       (txt "finish", Some VNone, Some info)]
  ∧ count is_validator_call (trace out.2) = 1.
Proof. repeat split; vm_compute; reflexivity. Qed.

(** The second step of [world_synthesis_fails] is executed but judged
    invalid: a warning is logged and its section is still in the report
    context. *)
Example invalid_step_warns :
  is_valid (validation_of (step_result world_synthesis_fails 2 (txt "Step B")))
  = false
  ∧ event_summary <$> events (trace (execute_workflow world_synthesis_fails the_task).2)
    = [(txt "status", Some (VStr (txt "start")), Some info);
       (txt "activate", Some (VStr (txt "planner")), Some info);
       (txt "log", Some VNone, Some (VStr (txt "planner")));
       (txt "activate", Some (VStr (txt "executor")), Some info);
       (txt "activate", Some (VStr (txt "validator")), Some info);
       (txt "activate", Some (VStr (txt "decision")), Some info);
       (txt "log", Some VNone, Some (VStr (txt "success")));
       (txt "activate", Some (VStr (txt "executor")), Some info);
       (txt "activate", Some (VStr (txt "validator")), Some info);
       (txt "activate", Some (VStr (txt "decision")), Some info);
       (txt "log", Some VNone, Some (VStr (txt "warning")));
       (txt "activate", Some (VStr (txt "end")), Some info);
       (txt "log", Some VNone, Some (VStr (txt "error")))].
Proof. split; vm_compute; reflexivity. Qed.

(** ** The finish event *)

(** C9: in a run where both steps succeed and synthesis returns "REPORT",
    the payload the callback receives with the finish event has the keys
    [msg], [role] and [node]; the report is nested under [msg], and the
    payload has no [report] key. *)
Theorem finish_payload_nests_report :
  exists payload : dict,
    last (events (trace (execute_workflow world_ok the_task).2))
    = Some (txt "finish", payload)
    ∧ payload !! "report" = None
    ∧ payload !! "msg" = Some (VDict {[ "report" := VStr (txt "REPORT") ]})
    ∧ payload !! "role" = Some (VStr (txt "info"))
    ∧ payload !! "node" = Some VNone
    ∧ size payload = 3.
Proof.
  eexists. split; [vm_compute; reflexivity|].
  repeat split; vm_compute; reflexivity.
Qed.

(** ** The status of the workflow state *)

Lemma Quiet_ret {A} (a : A) : Quiet (mret a).
Proof. intros r. exists []. split; [reflexivity | constructor]. Qed.

Lemma Quiet_lift {A} (x : result A) : Quiet (lift x).
Proof. intros r. exists []. split; [reflexivity | constructor]. Qed.

Lemma Quiet_act a : quiet a -> Quiet (act a).
Proof. intros Ha r. exists [a]. split; [reflexivity | repeat constructor; exact Ha]. Qed.

Lemma Quiet_bind {A B} (m : M A) (k : A -> M B) :
  Quiet m -> (forall a, Quiet (k a)) -> Quiet (m ≫= k).
Proof.
  intros Hm Hk r. rewrite bind_run.
  destruct (Hm r) as (acts1 & Hr1 & Hq1).
  destruct (m r) as [[a|e] r1]; simpl in Hr1; subst r1.
  - destruct (Hk a (perform_all acts1 r)) as (acts2 & Hr2 & Hq2).
    exists (acts1 ++ acts2). rewrite perform_all_app.
    split; [exact Hr2 | apply Forall_app; split; assumption].
  - exists acts1. split; [reflexivity | exact Hq1].
Qed.

Lemma Quiet_try_except {A} (m : M A) (h : exn -> M A) :
  Quiet m -> (forall e, Quiet (h e)) -> Quiet (try_except m h).
Proof.
  intros Hm Hh r. unfold try_except.
  destruct (Hm r) as (acts1 & Hr1 & Hq1).
  destruct (m r) as [[a|e] r1]; simpl in Hr1; subst r1.
  - exists acts1. split; [reflexivity | exact Hq1].
  - destruct (Hh e (perform_all acts1 r)) as (acts2 & Hr2 & Hq2).
    exists (acts1 ++ acts2). rewrite perform_all_app.
    split; [exact Hr2 | apply Forall_app; split; assumption].
Qed.

Lemma Quiet_chat w request : Quiet (chat w request).
Proof.
  intros r. exists [Chat request]. unfold chat.
  split; [destruct (co_chat w (chats r) request); reflexivity|].
  repeat constructor.
Qed.

Lemma Quiet_emit w type_ msg role node : Quiet (emit w type_ msg role node).
Proof.
  intros r. exists [event type_ msg role node]. unfold emit, call_event_callback.
  split; [destruct (event_callback w (callbacks r) type_ _); reflexivity|].
  repeat constructor.
Qed.

Lemma Quiet_agent_planner w task : Quiet (agent_planner w task).
Proof.
  intros r. rewrite agent_planner_spec. eexists. split; [reflexivity|].
  repeat constructor.
Qed.

Lemma Quiet_agent_executor w step : Quiet (agent_executor w step).
Proof.
  intros r. rewrite agent_executor_spec. eexists. split; [reflexivity|].
  repeat constructor.
Qed.

Lemma Quiet_agent_validator result : Quiet (agent_validator result).
Proof.
  apply Quiet_bind; [apply Quiet_act; exact I | intros _; apply Quiet_lift].
Qed.

Lemma Quiet_loop_body w i step acc : Quiet (loop_body w i step acc).
Proof.
  unfold loop_body.
  apply Quiet_bind; [apply Quiet_emit | intros _].
  apply Quiet_bind; [apply Quiet_agent_executor | intros res].
  destruct (decide (sr_status res = txt "failed")).
  - apply Quiet_bind; [apply Quiet_emit | intros _; apply Quiet_ret].
  - apply Quiet_bind; [apply Quiet_emit | intros _].
    apply Quiet_bind; [apply Quiet_agent_validator | intros v].
    apply Quiet_bind; [apply Quiet_emit | intros _].
    apply Quiet_bind; [apply Quiet_act; exact I | intros _].
    destruct (is_valid v);
      (apply Quiet_bind; [apply Quiet_emit | intros _; apply Quiet_ret]).
Qed.

Lemma Quiet_for_steps w steps : forall i acc, Quiet (for_steps w i steps acc).
Proof.
  induction steps as [|step rest IH]; intros i acc; cbn [for_steps].
  - apply Quiet_ret.
  - apply Quiet_bind; [apply Quiet_loop_body | intros acc'; apply IH].
Qed.

Lemma Ends_act s : Ends s (act (SetStatus s)).
Proof. intros r. exists []. split; [constructor | reflexivity]. Qed.

Lemma Ends_bind {A} s (m : M A) (k : A -> M unit) :
  Quiet m -> (forall a, Ends s (k a)) -> Ends s (m ≫= k).
Proof.
  intros Hm Hk r. rewrite bind_run.
  destruct (Hm r) as (acts1 & Hr1 & Hq1).
  destruct (m r) as [[a|e] r1]; simpl in Hr1; subst r1.
  - destruct (Hk a (perform_all acts1 r)) as (acts2 & Hq2 & Hr2).
    exists (acts1 ++ acts2). split; [apply Forall_app; split; assumption|].
    destruct (k a (perform_all acts1 r)) as [[u|e] r2]; simpl in *;
      rewrite Hr2, <- ?app_assoc, <- perform_all_app; reflexivity.
  - exists acts1. split; [exact Hq1 | reflexivity].
Qed.

Lemma workflow_handler_ends w e : Ends FAILED (workflow_handler w e).
Proof.
  unfold workflow_handler.
  apply Ends_bind; [apply Quiet_emit | intros _; apply Ends_act].
Qed.

Lemma emit_run w type_ msg role node r :
  emit w type_ msg role node r
  = match event_callback w (callbacks r) type_
            {[ "msg" := msg; "role" := role; "node" := node ]} with
    | None => (Ok tt, perform (event type_ msg role node) r)
    | Some e => (Raise e, perform (event type_ msg role node) r)
    end.
Proof.
  unfold emit, call_event_callback.
  destruct (event_callback w (callbacks r) type_ _); reflexivity.
Qed.

Lemma act_run a r : act a r = (Ok tt, perform a r).
Proof. reflexivity. Qed.

Lemma workflow_body_shape w task r :
  match event_callback w (callbacks r) (txt "status") initialized_payload with
  | Some e => workflow_body w task r = (Raise e, perform initialized_event r)
  | None =>
      exists acts,
        Forall quiet acts
        ∧ match (workflow_body w task r).1 with
          | Ok _ =>
              (workflow_body w task r).2
              = perform_all ([initialized_event; SetStartTime (datetime_now w)]
                             ++ acts ++ [SetStatus COMPLETED]) r
          | Raise _ =>
              (workflow_body w task r).2
              = perform_all ([initialized_event; SetStartTime (datetime_now w)]
                             ++ acts) r
          end
  end.
Proof.
  unfold workflow_body. rewrite bind_run, emit_run.
  fold initialized_payload. fold initialized_event.
  destruct (event_callback w (callbacks r) (txt "status") initialized_payload);
    [reflexivity|].
  cbv beta iota. rewrite bind_run, act_run. cbv beta iota.
  match goal with
  | |- context [mbind ?k ?m (perform (SetStartTime ?t) ?r')] =>
      assert (Hrest : Ends COMPLETED (mbind k m));
      [|destruct (Hrest (perform (SetStartTime t) r')) as (acts & Hq & Hr);
        exists acts; split; [exact Hq|];
        destruct (mbind k m (perform (SetStartTime t) r')) as [[u|e] r2];
        simpl in *; rewrite Hr; reflexivity]
  end.
  apply Ends_bind; [apply Quiet_emit | intros _].
  apply Ends_bind; [apply Quiet_agent_planner | intros plan].
  apply Ends_bind; [apply Quiet_act; exact I | intros _].
  apply Ends_bind; [apply Quiet_emit | intros _].
  apply Ends_bind; [apply Quiet_act; exact I | intros _].
  apply Ends_bind; [apply Quiet_for_steps | intros report].
  apply Ends_bind; [apply Quiet_emit | intros _].
  apply Ends_bind; [apply Quiet_chat | intros response].
  apply Ends_bind; [apply Quiet_emit | intros _].
  apply Ends_act.
Qed.

Lemma end_time_perform_all acts : forall r,
  end_time (state (perform_all acts r)) = end_time (state r).
Proof.
  induction acts as [|a acts IH]; intros r; simpl; [reflexivity|].
  rewrite IH. destruct a; reflexivity.
Qed.

Lemma quiet_status_writes acts : Forall quiet acts -> status_writes acts = [].
Proof.
  induction 1 as [|a acts Ha _ IH]; [reflexivity|].
  destruct a; simpl in *; try exact IH; contradiction.
Qed.

Lemma status_writes_app t1 t2 :
  status_writes (t1 ++ t2) = status_writes t1 ++ status_writes t2.
Proof. apply omap_app. Qed.

Lemma quiet_preserves acts : forall r,
  Forall quiet acts ->
  status (state (perform_all acts r)) = status (state r)
  ∧ start_time (state (perform_all acts r)) = start_time (state r).
Proof.
  induction acts as [|a acts IH]; intros r Hq; simpl; [split; reflexivity|].
  inversion Hq as [|? ? Ha Hq']; subst.
  destruct (IH (perform a r) Hq') as [-> ->].
  destruct a; simpl in *; try contradiction; split; reflexivity.
Qed.

Lemma state_after_status_write acts s r :
  Forall quiet acts ->
  status (state (perform_all (acts ++ [SetStatus s]) r)) = s
  ∧ start_time (state (perform_all (acts ++ [SetStatus s]) r))
    = start_time (state r).
Proof.
  intros Hq. rewrite perform_all_app. simpl.
  split; [reflexivity | apply (quiet_preserves acts r Hq)].
Qed.

Lemma run_actions_end w task :
  exists acts,
    status_writes acts = []
    ∧ run_actions w task
      = acts ++ [SetStatus match synthesis_outcome w task with
                           | Returns _ => COMPLETED
                           | Raises _ => FAILED
                           end].
Proof.
  unfold run_actions, run_epilogue.
  assert (Hloop : forall sts k i, status_writes (loop_actions w k i sts) = []).
  { induction sts as [|step rest IH]; intros k i; cbn [loop_actions];
      [reflexivity|].
    rewrite status_writes_app, IH, app_nil_r. unfold step_actions.
    destruct (failed _); [reflexivity|]. destruct (is_valid _); reflexivity. }
  destruct (synthesis_outcome w task) as [response|e].
  - exists (run_prologue w task ++ loop_actions w 1 0 (steps (run_plan w task))
            ++ [event (txt "activate")
                  (VStr (txt "Synthesizing Final Intelligence Report...")) info
                  (VStr (txt "end"));
                Chat (synthesis_request w task); finish_event response]).
    split; [|rewrite <- !app_assoc; reflexivity].
    rewrite !status_writes_app, Hloop. reflexivity.
  - exists (run_prologue w task ++ loop_actions w 1 0 (steps (run_plan w task))
            ++ [event (txt "activate")
                  (VStr (txt "Synthesizing Final Intelligence Report...")) info
                  (VStr (txt "end"));
                Chat (synthesis_request w task); critical_event e]).
    split; [|rewrite <- !app_assoc; reflexivity].
    rewrite !status_writes_app, Hloop. reflexivity.
Qed.

Lemma status_unwritten acts : forall r,
  status_writes acts = [] ->
  status (state (perform_all acts r)) = status (state r).
Proof.
  induction acts as [|a acts IH]; intros r Hw; simpl; [reflexivity|].
  destruct a; simpl in Hw; try discriminate; rewrite (IH _ Hw); reflexivity.
Qed.

(** C1 as stated fails: in a run that completes, [end_time] is still
    unset and no assignment of [IN_PROGRESS] was made; and when the
    callback raises, the exception leaves the run with the status still
    [PENDING]. *)
Lemma run_never_in_progress_nor_timed :
  (let out := execute_workflow world_ok the_task in
   out.1 = Ok tt
   ∧ status (state out.2) = COMPLETED
   ∧ end_time (state out.2) = None
   ∧ status_writes (trace out.2) = [COMPLETED])
  ∧ (let out := execute_workflow world_callback_raises the_task in
     out.1 = Raise (Exception "BrokenPipeError" (txt "client went away"))
     ∧ status (state out.2) = PENDING
     ∧ end_time (state out.2) = None).
Proof. repeat split; vm_compute; reflexivity. Qed.

(** The status is assigned at most once, as the last action of a run, and
    [end_time] never. *)
Lemma status_assigned_once (w : World) (task : str) :
  let out := execute_workflow w task in
  let final := state out.2 in
  end_time final = None
  ∧ start_time final
    = match event_callback w 0 (txt "status") initialized_payload with
      | None => Some (datetime_now w)
      | Some _ => None
      end
  ∧ (exists acts,
       status_writes acts = []
       ∧ ((exists e, out.1 = Raise e ∧ trace out.2 = acts ∧ status final = PENDING)
          ∨ (out.1 = Ok tt ∧ trace out.2 = acts ++ [SetStatus COMPLETED]
             ∧ status final = COMPLETED)
          ∨ (out.1 = Ok tt ∧ trace out.2 = acts ++ [SetStatus FAILED]
             ∧ status final = FAILED))).
Proof.
  cbv zeta.
  assert (Hhandler : forall e acts0,
    status_writes acts0 = [] ->
    let r0 := perform_all acts0 (initial_run w task) in
    let out := workflow_handler w e r0 in
    end_time (state out.2) = None
    ∧ start_time (state out.2) = start_time (state r0)
    ∧ exists acts,
        status_writes acts = []
        ∧ ((exists e', out.1 = Raise e' ∧ trace out.2 = acts
                       ∧ status (state out.2) = PENDING)
           ∨ (out.1 = Ok tt ∧ trace out.2 = acts ++ [SetStatus FAILED]
              ∧ status (state out.2) = FAILED))).
  { intros e acts0 Hw0. cbv zeta.
    destruct (workflow_handler_ends w e (perform_all acts0 (initial_run w task)))
      as (acts & Hq & Hr).
    destruct (workflow_handler w e (perform_all acts0 (initial_run w task)))
      as [[[]|e'] r2]; simpl in Hr |- *; subst r2.
    - rewrite end_time_perform_all, end_time_perform_all.
      destruct (state_after_status_write acts FAILED
                  (perform_all acts0 (initial_run w task)) Hq) as [Hs Ht].
      split; [reflexivity|]. split; [exact Ht|].
      exists (acts0 ++ acts). rewrite status_writes_app, Hw0.
      rewrite (quiet_status_writes acts Hq). split; [reflexivity|]. right.
      rewrite !trace_perform_all, app_assoc. repeat split. exact Hs.
    - rewrite end_time_perform_all, end_time_perform_all.
      destruct (quiet_preserves acts (perform_all acts0 (initial_run w task)) Hq)
        as [Hs Ht].
      split; [reflexivity|]. split; [exact Ht|].
      exists (acts0 ++ acts). rewrite status_writes_app, Hw0.
      rewrite (quiet_status_writes acts Hq). split; [reflexivity|]. left.
      exists e'. rewrite !trace_perform_all. repeat split.
      rewrite Hs, (status_unwritten acts0 _ Hw0). reflexivity. }
  unfold execute_workflow, try_except.
    pose proof (workflow_body_shape w task (initial_run w task)) as Hb.
    change (callbacks (initial_run w task)) with 0 in Hb.
    destruct (event_callback w 0 (txt "status") initialized_payload) as [e0|].
    - rewrite Hb.
      destruct (Hhandler e0 [initialized_event] eq_refl) as (He & Ht & acts & Hw & H).
      split; [exact He|]. split; [exact Ht|].
      exists acts. split; [exact Hw|]. destruct H as [H|H]; [left|right; right]; exact H.
    - destruct Hb as (acts & Hq & Hr).
      destruct (workflow_body w task (initial_run w task)) as [[[]|e] r1];
        cbn [fst snd] in Hr; subst r1.
      + cbn [fst snd]. rewrite end_time_perform_all.
        rewrite app_assoc.
        assert (Hq2 : status_writes
                        ([initialized_event; SetStartTime (datetime_now w)] ++ acts)
                      = []).
        { rewrite status_writes_app, (quiet_status_writes acts Hq). reflexivity. }
        split; [reflexivity|]. split.
        * rewrite !perform_all_app.
          change (start_time (state (perform_all [SetStatus COMPLETED] ?r)))
            with (start_time (state r)).
          rewrite (proj2 (quiet_preserves acts _ Hq)). reflexivity.
        * eexists. split; [exact Hq2|]. right. left.
          rewrite trace_perform_all, perform_all_app. repeat split.
      + assert (Hq2 : status_writes
                        ([initialized_event; SetStartTime (datetime_now w)] ++ acts)
                      = []).
        { rewrite status_writes_app, (quiet_status_writes acts Hq). reflexivity. }
        destruct (Hhandler e _ Hq2) as (He & Ht & acts' & Hw & H).
        split; [exact He|]. split.
        * rewrite Ht, perform_all_app, (proj2 (quiet_preserves acts _ Hq)).
          reflexivity.
        * exists acts'. split; [exact Hw|].
          destruct H as [H|H]; [left|right; right]; exact H.
Qed.

(** ** The run, whatever the callback does *)

Lemma deliver_app w acts1 acts2 : forall r,
  deliver w (acts1 ++ acts2) r
  = match deliver w acts1 r with
    | (Ok _, r') => deliver w acts2 r'
    | (Raise e, r') => (Raise e, r')
    end.
Proof.
  induction acts1 as [|a acts1 IH]; intros r; cbn [app deliver]; [reflexivity|].
  destruct (callback_outcome w (callbacks r) a); [reflexivity | apply IH].
Qed.

Lemma deliver_returns w acts : forall r u r',
  deliver w acts r = (Ok u, r') -> r' = perform_all acts r.
Proof.
  induction acts as [|a acts IH]; intros r u r'; cbn [deliver].
  - intros [= _ <-]. reflexivity.
  - destruct (callback_outcome w (callbacks r) a); [discriminate|].
    intros H. apply (IH _ _ _ H).
Qed.

Lemma events_cons_callback ty p acts :
  events (Callback ty p :: acts) = (ty, p) :: events acts.
Proof. reflexivity. Qed.

(** [deliver] returns exactly when the callback returns from every event
    of the list. *)
Lemma deliver_returns_iff w acts : forall r,
  (deliver w acts r).1 = Ok tt
  ↔ forall i ty p, events acts !! i = Some (ty, p) ->
                   event_callback w (callbacks r + i) ty p = None.
Proof.
  induction acts as [|a acts IH]; intros r; cbn [deliver].
  - split; [intros _ i ty p H; discriminate H | reflexivity].
  - destruct a as [req|ty0 p0|sec|ag inp|t|n|s];
      try (cbn [callback_outcome]; rewrite IH; reflexivity).
    cbn [callback_outcome]. rewrite events_cons_callback.
    destruct (event_callback w (callbacks r) ty0 p0) as [e|] eqn:Hcb.
    + split; [discriminate|]. intros H.
      specialize (H 0 ty0 p0 eq_refl). rewrite Nat.add_0_r in H. congruence.
    + rewrite IH. cbn [perform callbacks]. split.
      * intros H [|i] ty p Hi.
        -- injection Hi as <- <-. rewrite Nat.add_0_r. exact Hcb.
        -- rewrite Nat.add_succ_r. apply (H i ty p Hi).
      * intros H i ty p Hi. specialize (H (S i) ty p Hi).
        rewrite Nat.add_succ_r in H. exact H.
Qed.

(** When [deliver] raises, the exception is the one the callback raised
    at the last event performed. *)
Lemma deliver_raises w acts : forall r e r',
  deliver w acts r = (Raise e, r') ->
  exists pre a post,
    acts = pre ++ a :: post
    ∧ r' = perform_all (pre ++ [a]) r
    ∧ callback_outcome w (callbacks r + length (events pre)) a = Some e.
Proof.
  induction acts as [|a acts IH]; intros r e r'; cbn [deliver]; [discriminate|].
  destruct (callback_outcome w (callbacks r) a) as [e0|] eqn:Hcb.
  - intros [= <- <-]. exists [], a, acts.
    split; [reflexivity|]. split; [reflexivity|].
    simpl. rewrite Nat.add_0_r. exact Hcb.
  - intros H. destruct (IH _ _ _ H) as (pre & a' & post & -> & -> & Hraise).
    exists (a :: pre), a', post.
    split; [reflexivity|]. split; [reflexivity|].
    rewrite <- Hraise. f_equal.
    destruct a; simpl; lia.
Qed.

Lemma emit_deliver w type_ msg role node r :
  emit w type_ msg role node r = deliver w [event type_ msg role node] r.
Proof.
  rewrite emit_run. cbn [deliver callback_outcome event].
  destruct (event_callback w (callbacks r) type_ _); reflexivity.
Qed.

(** [emit] followed by the rest of a block. *)
Lemma emit_then {A} w type_ msg role node (k : unit -> M A) r :
  (emit w type_ msg role node ≫= k) r
  = match callback_outcome w (callbacks r) (event type_ msg role node) with
    | None => k tt (perform (event type_ msg role node) r)
    | Some e => (Raise e, perform (event type_ msg role node) r)
    end.
Proof.
  rewrite bind_run, emit_run. cbn [callback_outcome event].
  destruct (event_callback w (callbacks r) type_ _); reflexivity.
Qed.

Lemma deliver_event {A} w a rest r (f : Run -> result A * Run) :
  match deliver w (a :: rest) r with
  | (Ok _, r') => f r'
  | (Raise e, r') => (Raise e, r')
  end
  = match callback_outcome w (callbacks r) a with
    | None => match deliver w rest (perform a r) with
              | (Ok _, r') => f r'
              | (Raise e, r') => (Raise e, r')
              end
    | Some e => (Raise e, perform a r)
    end.
Proof.
  cbn [deliver]. destruct (callback_outcome w (callbacks r) a); reflexivity.
Qed.

Lemma loop_body_general w i step acc r :
  let res := step_result w (chats r) step in
  loop_body w i step acc r
  = match deliver w (step_actions i step res) r with
    | (Ok _, r') => (Ok (acc ++ step_report step res), r')
    | (Raise e, r') => (Raise e, r')
    end.
Proof.
  cbv zeta. unfold loop_body, step_actions, step_report.
  set (res := step_result w (chats r) step).
  cbn [app]. rewrite emit_then, deliver_event. fold (executing_event step).
  destruct (callback_outcome w (callbacks r) (executing_event step));
    [reflexivity|].
  rewrite bind_run, agent_executor_spec. cbn [perform_all fold_left].
  change (chats (perform (executing_event step) r)) with (chats r). fold res.
  rewrite deliver_event. cbn [callback_outcome].
  rewrite deliver_event. cbn [callback_outcome].
  unfold failed.
  destruct (decide (sr_status res = txt "failed")) as [Hf|Hf].
  - rewrite bool_decide_eq_true_2 by exact Hf.
    rewrite emit_then, deliver_event. fold (step_failed_event res).
    destruct (callback_outcome w _ (step_failed_event res)); [reflexivity|].
    rewrite app_nil_r. reflexivity.
  - rewrite bool_decide_eq_false_2 by exact Hf.
    rewrite emit_then, deliver_event. fold verifying_event.
    destruct (callback_outcome w _ verifying_event); [reflexivity|].
    rewrite bind_run, agent_validator_spec.
    rewrite deliver_event. cbn [callback_outcome].
    rewrite emit_then, deliver_event. fold decision_event.
    destruct (callback_outcome w _ decision_event); [reflexivity|].
    rewrite bind_run. unfold sleep. rewrite act_run.
    rewrite deliver_event. cbn [callback_outcome].
    destruct (is_valid (validation_of res)).
    + rewrite emit_then, deliver_event. fold (verified_event i res).
      destruct (callback_outcome w _ (verified_event i res)); reflexivity.
    + rewrite emit_then, deliver_event. fold (warning_event res).
      destruct (callback_outcome w _ (warning_event res)); reflexivity.
Qed.

Lemma for_steps_general w sts : forall i acc r,
  for_steps w i sts acc r
  = match deliver w (loop_actions w (chats r) i sts) r with
    | (Ok _, r') => (Ok (acc ++ loop_report w (chats r) sts), r')
    | (Raise e, r') => (Raise e, r')
    end.
Proof.
  induction sts as [|step rest IH]; intros i acc r;
    cbn [for_steps loop_actions loop_report].
  - cbn [deliver]. rewrite app_nil_r. reflexivity.
  - rewrite bind_run, loop_body_general, deliver_app.
    destruct (deliver w (step_actions i step (step_result w (chats r) step)) r)
      as [[u|e] r1] eqn:Hstep; [|reflexivity].
    rewrite IH. apply deliver_returns in Hstep. subst r1.
    rewrite chats_step_actions, <- app_assoc. reflexivity.
Qed.

Lemma chats_deliver_loop w sts k i r u r' :
  chats r = k ->
  deliver w (loop_actions w k i sts) r = (Ok u, r') ->
  chats r' = k + length sts.
Proof.
  intros Hk H. apply deliver_returns in H. subst r'.
  apply chats_loop_actions. exact Hk.
Qed.

(** The [try] block, whatever the callback does. *)
Lemma workflow_body_general w task :
  workflow_body w task (initial_run w task)
  = match deliver w (try_actions w task) (initial_run w task) with
    | (Ok _, r) =>
        match synthesis_outcome w task with
        | Returns _ => (Ok tt, r)
        | Raises e => (Raise e, r)
        end
    | (Raise e, r) => (Raise e, r)
    end.
Proof.
  unfold workflow_body, try_actions, body_actions, run_prologue.
  rewrite <- !app_assoc. cbn [app].
  rewrite emit_then, deliver_event.
  destruct (callback_outcome w (callbacks (initial_run w task)) _); [reflexivity|].
  rewrite bind_run, act_run, deliver_event. cbn [callback_outcome].
  rewrite emit_then, deliver_event.
  destruct (callback_outcome w _ (event (txt "activate") _ _ _)); [reflexivity|].
  rewrite bind_run, agent_planner_spec. cbn [perform_all fold_left].
  change (chats (perform _ (perform _ (perform _ (initial_run w task))))) with 0.
  fold (run_plan w task).
  rewrite deliver_event. cbn [callback_outcome].
  rewrite deliver_event. cbn [callback_outcome].
  rewrite bind_run, act_run, deliver_event. cbn [callback_outcome].
  rewrite emit_then, deliver_event.
  destruct (callback_outcome w _ (event (txt "log") _ _ _)); [reflexivity|].
  rewrite bind_run. unfold sleep. rewrite act_run, deliver_event.
  cbn [callback_outcome].
  rewrite bind_run, for_steps_general.
  match goal with
  | |- context [deliver w (loop_actions w ?k 0 _) ?r] =>
      change k with 1; set (r1 := r)
  end.
  rewrite deliver_app.
  destruct (deliver w (loop_actions w 1 0 (steps (run_plan w task))) r1)
    as [[u|e] r2] eqn:Hloop; [|reflexivity].
  apply (chats_deliver_loop w _ 1 0 r1 u r2 eq_refl) in Hloop.
  cbn [app].
  rewrite emit_then, deliver_event. fold synthesizing_event.
  destruct (callback_outcome w (callbacks r2) synthesizing_event); [reflexivity|].
  rewrite bind_run. unfold chat. cbv zeta.
  change (chats (perform synthesizing_event r2)) with (chats r2).
  rewrite Hloop. cbn [app deliver callback_outcome].
  unfold synthesis_outcome, synthesis_request.
  change (1 + length (steps (run_plan w task)))
    with (S (length (steps (run_plan w task)))).
  destruct (co_chat w (S (length (steps (run_plan w task)))) _) as [response|e];
    [|reflexivity].
  rewrite emit_then. cbn [deliver]. fold (finish_event response).
  destruct (callback_outcome w _ (finish_event response)); reflexivity.
Qed.

(** The whole method: the [try] block, and the handler when it raises. *)
Lemma execute_workflow_general w task :
  execute_workflow w task
  = match workflow_body w task (initial_run w task) with
    | (Ok u, r) => (Ok u, r)
    | (Raise e, r) => deliver w [critical_event e; SetStatus FAILED] r
    end.
Proof.
  unfold execute_workflow, try_except.
  destruct (workflow_body w task (initial_run w task)) as [[u|e] r];
    [reflexivity|].
  unfold workflow_handler. rewrite emit_then. cbn [deliver].
  fold (critical_event e).
  destruct (callback_outcome w (callbacks r) (critical_event e)); reflexivity.
Qed.

Lemma status_writes_loop w sts : forall k i,
  status_writes (loop_actions w k i sts) = [].
Proof.
  induction sts as [|step rest IH]; intros k i; cbn [loop_actions];
    [reflexivity|].
  rewrite status_writes_app, IH, app_nil_r. unfold step_actions.
  destruct (failed _); [reflexivity|]. destruct (is_valid _); reflexivity.
Qed.

Lemma status_writes_body_actions w task : status_writes (body_actions w task) = [].
Proof.
  unfold body_actions. rewrite !status_writes_app, status_writes_loop.
  reflexivity.
Qed.

Lemma trace_from_initial w task acts :
  trace (perform_all acts (initial_run w task)) = acts.
Proof. rewrite trace_perform_all. reflexivity. Qed.

Lemma callbacks_from_initial w task acts :
  callbacks (perform_all acts (initial_run w task)) = length (events acts).
Proof. rewrite callbacks_perform_all. reflexivity. Qed.

Lemma status_from_initial w task acts :
  status_writes acts = [] ->
  status (state (perform_all acts (initial_run w task))) = PENDING.
Proof. intros H. rewrite (status_unwritten acts _ H). reflexivity. Qed.

(** The four ways the [try] block can end. *)
Lemma workflow_body_cases w task :
  let init := initial_run w task in
  let body := workflow_body w task init in
  (exists response,
     synthesis_outcome w task = Returns response
     ∧ callback_outcome w (length (events (body_actions w task)))
         (finish_event response) = None
     ∧ body = (Ok tt, perform_all (body_actions w task
                                   ++ [finish_event response; SetStatus COMPLETED])
                        init))
  ∨ (exists e,
       synthesis_outcome w task = Raises e
       ∧ body = (Raise e, perform_all (body_actions w task) init))
  ∨ (exists response e,
       synthesis_outcome w task = Returns response
       ∧ callback_outcome w (length (events (body_actions w task)))
           (finish_event response) = Some e
       ∧ body = (Raise e, perform_all (body_actions w task ++ [finish_event response])
                            init))
  ∨ (exists e pre a post,
       body_actions w task = pre ++ a :: post
       ∧ callback_outcome w (length (events pre)) a = Some e
       ∧ body = (Raise e, perform_all (pre ++ [a]) init)).
Proof.
  cbv zeta. rewrite workflow_body_general. unfold try_actions.
  rewrite deliver_app.
  destruct (deliver w (body_actions w task) (initial_run w task))
    as [[u|e] r1] eqn:Hbody.
  - apply deliver_returns in Hbody. subst r1.
    destruct (synthesis_outcome w task) as [response|e].
    + cbn [deliver]. rewrite callbacks_from_initial.
      destruct (callback_outcome w _ (finish_event response)) as [e|] eqn:Hcb.
      * right. right. left. exists response, e.
        split; [reflexivity|]. split; [exact Hcb|].
        rewrite perform_all_app. reflexivity.
      * left. exists response. split; [reflexivity|]. split; [exact Hcb|].
        rewrite perform_all_app. reflexivity.
    + right. left. exists e. split; reflexivity.
  - destruct (deliver_raises w _ _ _ _ Hbody) as (pre & a & post & Hsplit & -> & Hcb).
    right. right. right. exists e, pre, a, post.
    split; [exact Hsplit|]. split; [exact Hcb | reflexivity].
Qed.

(** The callback raises only at events. *)
Lemma callback_outcome_quiet w k a e :
  callback_outcome w k a = Some e -> status_writes [a] = [].
Proof. destruct a; try discriminate. reflexivity. Qed.

(** The [try] block returns exactly when the synthesis call returns and
    the callback returns from every event. *)
Lemma workflow_body_returns_iff w task :
  (workflow_body w task (initial_run w task)).1 = Ok tt
  ↔ (exists response, synthesis_outcome w task = Returns response)
    ∧ forall i ty p, events (try_actions w task) !! i = Some (ty, p) ->
                     event_callback w i ty p = None.
Proof.
  rewrite workflow_body_general.
  pose proof (deliver_returns_iff w (try_actions w task) (initial_run w task)) as Hiff.
  change (callbacks (initial_run w task)) with 0 in Hiff.
  destruct (deliver w (try_actions w task) (initial_run w task)) as [[[]|e] r].
  - destruct (synthesis_outcome w task) as [response|e] eqn:Hs.
    + split; [|reflexivity]. intros _.
      split; [exists response; reflexivity | apply Hiff; reflexivity].
    + split; [discriminate|]. intros [[response [=]] _].
  - split; [discriminate|]. intros [_ H]. apply Hiff in H. discriminate H.
Qed.

(** The handler after a [try] block that raised [e]. *)
Lemma handler_cases w e r :
  status (state r) = PENDING ->
  let out := deliver w [critical_event e; SetStatus FAILED] r in
  match callback_outcome w (callbacks r) (critical_event e) with
  | None =>
      out.1 = Ok tt ∧ status (state out.2) = FAILED
      ∧ trace out.2 = trace r ++ [critical_event e; SetStatus FAILED]
  | Some e' =>
      out.1 = Raise e' ∧ status (state out.2) = PENDING
      ∧ trace out.2 = trace r ++ [critical_event e]
  end.
Proof.
  intros Hs. cbv zeta. cbn [deliver].
  destruct (callback_outcome w (callbacks r) (critical_event e)) as [e'|].
  - split; [reflexivity|]. split; [exact Hs | reflexivity].
  - cbn [callback_outcome fst snd]. split; [reflexivity|].
    split; [reflexivity|]. cbn [perform trace]. rewrite <- app_assoc. reflexivity.
Qed.

(** C1, amended: the workflow state begins in [PENDING] with no start or
    end time.  A run never assigns [IN_PROGRESS] and never sets
    [end_time]; [start_time] is set once the callback has returned from
    the first event.  The status is assigned at most once, as the last
    action of the run.  The [try] block runs to its end exactly when the
    synthesis call returns and the callback returns from every event;
    then every step was processed, the finish event was delivered and
    the status is [COMPLETED].  Otherwise an exception is raised in the
    block, by the callback at one of the events or by the synthesis
    call; the block stops there with the status still [PENDING] and the
    handler emits the critical log event: when the callback returns
    from it the status is [FAILED] and the run returns, when it raises
    the exception leaves the run and the status stays [PENDING].  With a
    callback that always returns the run returns, [COMPLETED] if the
    synthesis call returns and [FAILED] if it raises. *)
Theorem status_lifecycle (w : World) (task : str) :
  let init := state (initial_run w task) in
  let body := workflow_body w task (initial_run w task) in
  let out := execute_workflow w task in
  let final := state out.2 in
  (status init = PENDING ∧ start_time init = None ∧ end_time init = None)
  ∧ end_time final = None
  ∧ start_time final
    = match event_callback w 0 (txt "status") initialized_payload with
      | None => Some (datetime_now w)
      | Some _ => None
      end
  ∧ (exists acts,
       status_writes acts = []
       ∧ ((exists e, out.1 = Raise e ∧ trace out.2 = acts ∧ status final = PENDING)
          ∨ (out.1 = Ok tt ∧ trace out.2 = acts ++ [SetStatus COMPLETED]
             ∧ status final = COMPLETED)
          ∨ (out.1 = Ok tt ∧ trace out.2 = acts ++ [SetStatus FAILED]
             ∧ status final = FAILED)))
  ∧ (body.1 = Ok tt
     ↔ (exists response, synthesis_outcome w task = Returns response)
       ∧ forall i ty p, events (try_actions w task) !! i = Some (ty, p) ->
                        event_callback w i ty p = None)
  ∧ match body.1 with
    | Ok _ =>
        out.1 = Ok tt ∧ status final = COMPLETED
        ∧ exists response,
            synthesis_outcome w task = Returns response
            ∧ trace out.2
              = body_actions w task ++ [finish_event response; SetStatus COMPLETED]
    | Raise e =>
        status (state body.2) = PENDING
        ∧ status_writes (trace body.2) = []
        ∧ trace body.2 `prefix_of` try_actions w task
        ∧ ((synthesis_outcome w task = Raises e
            ∧ trace body.2 = body_actions w task)
           ∨ (exists acts a,
                trace body.2 = acts ++ [a]
                ∧ callback_outcome w (length (events acts)) a = Some e))
        ∧ match callback_outcome w (callbacks body.2) (critical_event e) with
          | None =>
              out.1 = Ok tt ∧ status final = FAILED
              ∧ trace out.2 = trace body.2 ++ [critical_event e; SetStatus FAILED]
          | Some e' =>
              out.1 = Raise e' ∧ status final = PENDING
              ∧ trace out.2 = trace body.2 ++ [critical_event e]
          end
    end
  ∧ (callback_returns w ->
     out.1 = Ok tt
     ∧ status final = match synthesis_outcome w task with
                      | Returns _ => COMPLETED
                      | Raises _ => FAILED
                      end).
Proof.
  cbv zeta.
  split; [repeat split|].
  destruct (status_assigned_once w task) as (Hend & Hstart & Honce).
  split; [exact Hend|]. split; [exact Hstart|]. split; [exact Honce|].
  split; [apply workflow_body_returns_iff|].
  split; cycle 1.
  { intros Hcb. rewrite (execute_workflow_spec w Hcb). cbn [fst snd].
    split; [reflexivity|].
    destruct (run_actions_end w task) as (acts & Hw & ->).
    rewrite perform_all_app. reflexivity. }
  clear Hend Hstart Honce.
  rewrite execute_workflow_general.
  assert (Hraise : forall e acts,
    status_writes acts = [] ->
    acts `prefix_of` try_actions w task ->
    (synthesis_outcome w task = Raises e ∧ acts = body_actions w task)
    ∨ (exists acts0 a, acts = acts0 ++ [a]
         ∧ callback_outcome w (length (events acts0)) a = Some e) ->
    let r := perform_all acts (initial_run w task) in
    status (state r) = PENDING
    ∧ status_writes (trace r) = []
    ∧ trace r `prefix_of` try_actions w task
    ∧ ((synthesis_outcome w task = Raises e ∧ trace r = body_actions w task)
       ∨ (exists acts0 a, trace r = acts0 ++ [a]
            ∧ callback_outcome w (length (events acts0)) a = Some e))
    ∧ match callback_outcome w (callbacks r) (critical_event e) with
      | None =>
          (deliver w [critical_event e; SetStatus FAILED] r).1 = Ok tt
          ∧ status (state (deliver w [critical_event e; SetStatus FAILED] r).2)
            = FAILED
          ∧ trace (deliver w [critical_event e; SetStatus FAILED] r).2
            = trace r ++ [critical_event e; SetStatus FAILED]
      | Some e' =>
          (deliver w [critical_event e; SetStatus FAILED] r).1 = Raise e'
          ∧ status (state (deliver w [critical_event e; SetStatus FAILED] r).2)
            = PENDING
          ∧ trace (deliver w [critical_event e; SetStatus FAILED] r).2
            = trace r ++ [critical_event e]
      end).
  { intros e acts Hw Hprefix Hsource. cbv zeta.
    rewrite trace_from_initial.
    split; [apply status_from_initial; exact Hw|].
    split; [exact Hw|]. split; [exact Hprefix|]. split; [exact Hsource|].
    pose proof (handler_cases w e (perform_all acts (initial_run w task))
                  (status_from_initial w task acts Hw)) as Hh.
    cbv zeta in Hh. rewrite trace_from_initial in Hh. exact Hh. }
  destruct (workflow_body_cases w task)
    as [(response & Hs & Hcb & ->)
       |[(e & Hs & ->)
        |[(response & e & Hs & Hcb & ->)
         |(e & pre & a & post & Hsplit & Hcb & ->)]]]; cbn [fst snd].
  - split; [reflexivity|]. rewrite perform_all_app.
    split; [reflexivity|]. exists response. split; [exact Hs|].
    rewrite <- perform_all_app. apply trace_from_initial.
  - apply Hraise.
    + apply status_writes_body_actions.
    + unfold try_actions. rewrite Hs, app_nil_r. reflexivity.
    + left. split; [exact Hs | reflexivity].
  - apply Hraise.
    + rewrite status_writes_app, status_writes_body_actions. reflexivity.
    + unfold try_actions. rewrite Hs.
      apply prefix_app, prefix_cons, prefix_nil.
    + right. exists (body_actions w task), (finish_event response).
      split; [reflexivity | exact Hcb].
  - assert (Hw : status_writes (pre ++ [a]) = []).
    { pose proof (status_writes_body_actions w task) as Hb.
      rewrite Hsplit, status_writes_app in Hb.
      apply app_eq_nil in Hb as [Hpre _].
      rewrite status_writes_app, Hpre.
      apply (callback_outcome_quiet w _ a e Hcb). }
    apply Hraise.
    + exact Hw.
    + unfold try_actions. rewrite Hsplit. eexists.
      rewrite <- !app_assoc. reflexivity.
    + right. exists pre, a. split; [reflexivity | exact Hcb].
Qed.

Lemma status_lifecycle_witness :
  (let out := execute_workflow world_synthesis_fails the_task in
   out.1 = Ok tt ∧ status (state out.2) = FAILED)
  ∧ (let out := execute_workflow world_raises_at_verifying the_task in
     out.1 = Ok tt ∧ status (state out.2) = FAILED).
Proof.
  split.
  - destruct (status_lifecycle world_synthesis_fails the_task)
      as (_ & _ & _ & _ & _ & _ & Hreturns).
    destruct (Hreturns (callback_returns_scripted _)) as [Hout Hstatus].
    split; [exact Hout|]. rewrite Hstatus. vm_compute. reflexivity.
  - pose proof (status_lifecycle world_raises_at_verifying the_task) as H.
    cbv zeta in H. destruct H as (_ & _ & _ & _ & _ & Hcase & _).
    assert (Hbody : workflow_body world_raises_at_verifying the_task
                      (initial_run world_raises_at_verifying the_task)
                    = (Raise (Exception "BrokenPipeError" (txt "client went away")),
                       (workflow_body world_raises_at_verifying the_task
                          (initial_run world_raises_at_verifying the_task)).2))
      by (vm_compute; reflexivity).
    rewrite Hbody in Hcase. cbn [fst snd] in Hcase.
    destruct Hcase as (_ & _ & _ & _ & Hhandler).
    assert (Hcb : callback_outcome world_raises_at_verifying
                    (callbacks (workflow_body world_raises_at_verifying the_task
                                  (initial_run world_raises_at_verifying the_task)).2)
                    (critical_event
                       (Exception "BrokenPipeError" (txt "client went away")))
                  = None) by (vm_compute; reflexivity).
    rewrite Hcb in Hhandler. destruct Hhandler as (Hout & Hstatus & _).
    split; [exact Hout | exact Hstatus].
Defined.

(** * Further properties *)

(** The parts of a run that do not depend on the outcomes, with the
    plan's steps and the requests kept abstract while computing. *)
Ltac compute_prologue w task :=
  unfold run_prologue;
  generalize (steps (run_plan w task)); intros ?;
  generalize (planner_request task); intros ?;
  vm_compute; reflexivity.

Ltac compute_epilogue w task :=
  unfold run_epilogue;
  destruct (synthesis_outcome w task);
  generalize (synthesis_request w task); intros ?;
  vm_compute; reflexivity.

(** ** Parsing the planner's response *)



Lemma lstrip_all p s : Forall (fun c => p c = true) s -> lstrip p s = [].
Proof.
  induction 1 as [|c s Hc _ IH]; simpl; [reflexivity|]. rewrite Hc. exact IH.
Qed.

Lemma lstrip_keeps p s c : c ∈ s -> p c = false -> c ∈ lstrip p s.
Proof.
  intros Hin Hc. induction Hin as [c s|c a s Hin IH]; simpl.
  - rewrite Hc. left.
  - destruct (p a); [exact (IH Hc) | right; exact Hin].
Qed.

Lemma elem_of_rev (s : str) c : c ∈ rev s ↔ c ∈ s.
Proof. rewrite !list_elem_of_In. symmetry. apply in_rev. Qed.



Lemma strip_keeps p s c : c ∈ s -> p c = false -> c ∈ strip p s.
Proof.
  intros Hin Hc. unfold strip, rstrip. apply (proj2 (elem_of_rev _ _)).
  apply lstrip_keeps; [|exact Hc]. apply (proj2 (elem_of_rev _ _)).
  apply lstrip_keeps; assumption.
Qed.






Lemma split_one_line sep s : sep ∉ s -> split sep s = [s].
Proof.
  induction s as [|c s IH]; intros Hs; simpl; [reflexivity|].
  destruct (N.eqb_spec c sep) as [->|Hne]; [exfalso; apply Hs; left|].
  rewrite IH; [reflexivity|]. intros Hin. apply Hs. right. exact Hin.
Qed.



(** X2: a line made only of dashes and spaces, with at least one dash, is
    not dropped as blank: its bullet characters are removed and it yields
    one empty step. *)
Theorem dash_line_yields_empty_step (line : str)
    (Hchars : Forall (fun c => c = 45%N ∨ c = 32%N) line)
    (Hdash : 45%N ∈ line) :
  parse_steps line = [[]].
Proof.
  unfold parse_steps.
  assert (Hnl : newline ∉ line).
  { intros Hin. rewrite Forall_forall in Hchars.
    destruct (Hchars _ Hin) as [H|H]; discriminate H. }
  rewrite (split_one_line newline line Hnl).
  assert (Hkeep : strip is_space line ≠ []).
  { intros Hnil. pose proof (strip_keeps is_space line 45%N Hdash eq_refl) as Hin.
    rewrite Hnil in Hin. apply not_elem_of_nil in Hin. exact Hin. }
  rewrite filter_cons_True by exact Hkeep. rewrite filter_nil. simpl.
  assert (Hall : Forall (fun c => one_of (txt "- ") c = true) line).
  { eapply Forall_impl; [exact Hchars|]. intros c [->| ->]; reflexivity. }
  unfold strip at 2. rewrite (lstrip_all _ _ Hall). reflexivity.
Qed.

Lemma dash_line_yields_empty_step_witness : parse_steps [45; 32; 45]%N = [[]].
Proof.
  apply dash_line_yields_empty_step.
  - repeat (apply List.Forall_cons; [auto|]). apply List.Forall_nil.
  - left.
Defined.

(** ** The agents on every outcome *)

(** X3: whatever the generation call does, [PlannerAgent.execute] makes
    that one call and returns a plan: the parsed steps of the response, or
    the fallback steps when the call raises; the plan is classified
    "high" exactly when it has more than three steps and "medium"
    otherwise. *)
Theorem planner_always_returns (w : World) (task : str) (context : dict) (r : Run) :
  exists plan,
    PlannerAgent_execute w task context r
    = (Ok plan, perform (Chat (planner_request task)) r)
    ∧ output_type plan = txt "plan"
    ∧ ((complexity plan = txt "high" ∧ 3 < length (steps plan))
       ∨ (complexity plan = txt "medium" ∧ length (steps plan) ≤ 3))
    ∧ steps plan
      = match co_chat w (chats r) (planner_request task) with
        | Returns response => parse_steps (text response)
        | Raises _ => fallback_steps
        end.
Proof.
  eexists. split; [apply PlannerAgent_execute_spec|].
  destruct (co_chat w (chats r) (planner_request task)) as [response|e]; simpl.
  - split; [reflexivity|]. split; [|reflexivity].
    destruct (decide (3 < length (parse_steps (text response)))); [left|right];
      (split; [reflexivity | lia]).
  - split; [reflexivity|]. split; [|reflexivity]. right. split; [reflexivity|lia].
Qed.

(** X4: the validator accepts the result of the executor exactly when
    the generation call returned a text of more than 50 characters: the
    confidence the executor assigns to a returned response always passes
    the 0.6 threshold, and a failed result is always rejected. *)
Theorem executor_result_validity (w : World) (step : str) (context context' : dict)
    (r : Run) :
  exists res v,
    ExecutorAgent_execute w step context r
    = (Ok res, perform (Chat (executor_request step)) r)
    ∧ ValidatorAgent_execute (StepResult_dict res) context' = Ok v
    ∧ (is_valid v = true
       ↔ exists response,
           co_chat w (chats r) (executor_request step) = Returns response
           ∧ 50 < length (text response))
    ∧ (sr_status res = txt "failed"
       -> is_valid v = false ∧ feedback v = feedback_rejected).
Proof.
  eexists. eexists. split; [apply ExecutorAgent_execute_spec|].
  split; [apply validator_on_result|].
  destruct (co_chat w (chats r) (executor_request step)) as [response|e].
  - assert (Hv : is_valid (validation_of (executor_result (Returns response)))
                 = bool_decide (50 < length (text response))).
    { unfold executor_result.
      destruct (citations response) as [[|c cs]|];
        unfold validation_of; simpl; apply andb_true_r. }
    rewrite Hv. split.
    + rewrite bool_decide_eq_true. split.
      * intros Hlen. exists response. split; [reflexivity | exact Hlen].
      * intros (response' & Heq & Hlen). injection Heq as <-. exact Hlen.
    + unfold executor_result.
      destruct (citations response) as [[|c cs]|]; simpl; intros Hs;
        vm_compute in Hs; discriminate Hs.
  - assert (Hv : is_valid (validation_of (executor_result (Raises e))) = false)
      by (unfold executor_result, validation_of; simpl; apply andb_false_r).
    split.
    + rewrite Hv. split; [discriminate|].
      intros (response & Heq & _). discriminate Heq.
    + intros _. split; [exact Hv|].
      unfold validation_of in *. simpl in *. rewrite Hv. reflexivity.
Qed.

Lemma executor_result_validity_witness :
  exists res v,
    fst (ExecutorAgent_execute (scripted_world [boom]) (txt "Step A") ∅
           (initial_run (scripted_world [boom]) the_task)) = Ok res
    ∧ ValidatorAgent_execute (StepResult_dict res) ∅ = Ok v
    ∧ is_valid v = false.
Proof.
  destruct (executor_result_validity (scripted_world [boom]) (txt "Step A") ∅ ∅
              (initial_run (scripted_world [boom]) the_task))
    as (res & v & Hres & Hv & _ & Hfailed).
  exists res, v. rewrite Hres. split; [reflexivity|]. split; [exact Hv|].
  apply Hfailed.
  assert (Hstatus : fst (ExecutorAgent_execute (scripted_world [boom]) (txt "Step A") ∅
                           (initial_run (scripted_world [boom]) the_task))
                    = Ok (mk_StepResult (txt "failed") (txt "timeout") 0.0 None))
    by (vm_compute; reflexivity).
  rewrite Hres in Hstatus. simpl in Hstatus. injection Hstatus as ->. reflexivity.
Defined.

(** ** What a run leaves in the workflow state *)

Lemma Ends_performs s (m : M unit) r :
  Ends s m -> exists acts, (m r).2 = perform_all acts r.
Proof.
  intros Hm. destruct (Hm r) as (acts & _ & Hr).
  destruct (m r) as [[u|e] r']; simpl in Hr |- *; subst r'; eexists; reflexivity.
Qed.

Lemma execute_workflow_performs w task :
  exists acts, (execute_workflow w task).2 = perform_all acts (initial_run w task).
Proof.
  unfold execute_workflow, try_except.
  pose proof (workflow_body_shape w task (initial_run w task)) as Hb.
  destruct (event_callback w (callbacks (initial_run w task)) (txt "status")
              initialized_payload) as [e0|].
  - rewrite Hb.
    destruct (Ends_performs FAILED (workflow_handler w e0)
                (perform initialized_event (initial_run w task))
                (workflow_handler_ends w e0)) as (acts & ->).
    exists ([initialized_event] ++ acts). rewrite perform_all_app. reflexivity.
  - destruct Hb as (acts & _ & Hr).
    destruct (workflow_body w task (initial_run w task)) as [[[]|e] r1];
      cbn [fst snd] in Hr; subst r1.
    + eexists. reflexivity.
    + destruct (Ends_performs FAILED (workflow_handler w e)
                  (perform_all
                     ([initialized_event; SetStartTime (datetime_now w)] ++ acts)
                     (initial_run w task))
                  (workflow_handler_ends w e)) as (acts' & ->).
      eexists. rewrite <- perform_all_app. reflexivity.
Qed.

Lemma untouched_fields acts : forall r,
  let st := state r in
  let st' := state (perform_all acts r) in
  execution_log st' = execution_log st
  ∧ steps_completed st' = steps_completed st
  ∧ step_results st' = step_results st
  ∧ current_step st' = current_step st
  ∧ task st' = task st
  ∧ workflow_id st' = workflow_id st.
Proof.
  induction acts as [|a acts IH]; intros r; simpl; [repeat split|].
  destruct (IH (perform a r)) as (-> & -> & -> & -> & -> & ->).
  destruct a; repeat split.
Qed.

(** X7: whatever the outside does, a run leaves the execution log, the
    list of completed steps, the step results and the current step of its
    workflow state as the constructor made them: it never calls
    [log_event] and records no per-step progress.  The identifier and the
    task are the ones set at entry. *)
Theorem run_records_no_progress (w : World) (request : str) :
  let final := state (execute_workflow w request).2 in
  execution_log final = []
  ∧ steps_completed final = []
  ∧ step_results final = ∅
  ∧ current_step final = 0
  ∧ task final = request
  ∧ workflow_id final = txt "wf_" ++ str_of_Z (time_time w).
Proof.
  simpl. destruct (execute_workflow_performs w request) as (acts & ->).
  destruct (untouched_fields acts (initial_run w request))
    as (-> & -> & -> & -> & -> & ->).
  repeat split.
Qed.

(** X11: [get_execution_time] returns a text exactly when both
    [start_time] and [end_time] are set; since no run ever sets
    [end_time], it returns nothing on the state any run leaves. *)
Theorem execution_time_is_never_available (w : World) (task : str)
    (st : WorkflowState) :
  (is_Some (get_execution_time st)
   ↔ is_Some (start_time st) ∧ is_Some (end_time st))
  ∧ get_execution_time (state (execute_workflow w task).2) = None.
Proof.
  split.
  - unfold get_execution_time.
    destruct (start_time st) as [started|], (end_time st) as [finished|].
    + split; [intros _; split; eexists; reflexivity | intros _; eexists; reflexivity].
    + split; [intros [x Hx]; discriminate Hx | intros [_ [x Hx]]; discriminate Hx].
    + split; [intros [x Hx]; discriminate Hx | intros [[x Hx] _]; discriminate Hx].
    + split; [intros [x Hx]; discriminate Hx | intros [[x Hx] _]; discriminate Hx].
  - destruct (execute_workflow_performs w task) as (acts & ->).
    unfold get_execution_time. rewrite end_time_perform_all. simpl.
    destruct (start_time _); reflexivity.
Qed.

(** Once both times are set the elapsed time is shown in seconds below
    one minute and in minutes from there on. *)
Example execution_time_formats :
  let started := mk_datetime 2024 1 15 10 30 0 0 in
  let elapsed finish :=
    get_execution_time
      (set_end_time finish (set_start_time started (new_WorkflowState [] [] PENDING))) in
  elapsed (mk_datetime 2024 1 15 10 30 12 500) = Some (txt "12.0s")
  ∧ elapsed (mk_datetime 2024 1 15 10 31 0 0) = Some (txt "1.0m")
  ∧ elapsed (mk_datetime 2024 1 15 10 31 30 0) = Some (txt "1.5m")
  ∧ elapsed (mk_datetime 2024 3 1 10 30 0 0) = Some (txt "66240.0m").
Proof. repeat split; vm_compute; reflexivity. Qed.

(** ** Calls, pauses and events of a run *)

Lemma chats_perform_all acts : forall r,
  chats (perform_all acts r) = chats r + count is_chat acts.
Proof.
  induction acts as [|a acts IH]; intros r; [simpl; unfold count; simpl; lia|].
  change (perform_all (a :: acts) r) with (perform_all acts (perform a r)).
  rewrite IH. change (a :: acts) with ([a] ++ acts). rewrite count_app.
  destruct a; unfold count; simpl; lia.
Qed.

Lemma count_chat_step i step res : count is_chat (step_actions i step res) = 1.
Proof.
  unfold step_actions. destruct (failed res); [vm_compute; reflexivity|].
  destruct (is_valid (validation_of res)); vm_compute; reflexivity.
Qed.

Lemma count_sleep_step i step res :
  count is_sleep (step_actions i step res) = if failed res then 0 else 1.
Proof.
  unfold step_actions. destruct (failed res); [vm_compute; reflexivity|].
  destruct (is_valid (validation_of res)); vm_compute; reflexivity.
Qed.

Lemma count_chat_loop w sts : forall k i,
  count is_chat (loop_actions w k i sts) = length sts.
Proof.
  induction sts as [|step rest IH]; intros k i; cbn [loop_actions length].
  - reflexivity.
  - rewrite count_app, count_chat_step, IH. reflexivity.
Qed.

Lemma count_sleep_loop w sts : forall k i,
  count is_sleep (loop_actions w k i sts)
  = count (is_activate "decision") (loop_actions w k i sts).
Proof.
  induction sts as [|step rest IH]; intros k i; cbn [loop_actions].
  - reflexivity.
  - rewrite !count_app, count_sleep_step, count_decision_step, IH. reflexivity.
Qed.

Lemma total_steps_step i step res r :
  total_steps (state (perform_all (step_actions i step res) r))
  = total_steps (state r).
Proof.
  unfold step_actions. destruct (failed res); [reflexivity|].
  destruct (is_valid (validation_of res)); reflexivity.
Qed.

Lemma total_steps_loop w sts : forall k i r,
  total_steps (state (perform_all (loop_actions w k i sts) r))
  = total_steps (state r).
Proof.
  induction sts as [|step rest IH]; intros k i r; cbn [loop_actions].
  - reflexivity.
  - rewrite perform_all_app, IH. apply total_steps_step.
Qed.

(** X5: when the callback returns at every invocation, a run whose plan
    has N steps makes exactly N + 2 generation calls (one for the plan,
    one per step, one for synthesis), records N as [total_steps], and
    pauses once after planning and once after every quality-gate
    event. *)
Theorem run_call_counts (w : World) (task : str) (Hcb : callback_returns w) :
  let n := length (steps (run_plan w task)) in
  let run := (execute_workflow w task).2 in
  chats run = n + 2
  ∧ count is_chat (trace run) = n + 2
  ∧ total_steps (state run) = n
  ∧ count is_sleep (trace run) = 1 + count (is_activate "decision") (trace run).
Proof.
  cbv zeta.
  assert (Hchat : count is_chat (run_actions w task)
                  = length (steps (run_plan w task)) + 2).
  { unfold run_actions. rewrite !count_app, count_chat_loop.
    assert (Hp : count is_chat (run_prologue w task) = 1)
      by compute_prologue w task.
    assert (He : count is_chat (run_epilogue w task) = 1)
      by compute_epilogue w task.
    rewrite Hp, He. lia. }
  rewrite (trace_execute_workflow w task Hcb), (execute_workflow_spec w Hcb).
  cbn [snd]. rewrite chats_perform_all, Hchat.
  split; [reflexivity|]. split; [reflexivity|]. split.
  - unfold run_actions. rewrite !perform_all_app.
    assert (He : forall r, total_steps (state (perform_all (run_epilogue w task) r))
                           = total_steps (state r)).
    { intros r. unfold run_epilogue.
      destruct (synthesis_outcome w task); reflexivity. }
    rewrite He, total_steps_loop. reflexivity.
  - unfold run_actions. rewrite !count_app, count_sleep_loop.
    rewrite count_prologue_decision, count_epilogue_decision.
    assert (Hp : count is_sleep (run_prologue w task) = 1)
      by compute_prologue w task.
    assert (He : count is_sleep (run_epilogue w task) = 0)
      by compute_epilogue w task.
    rewrite Hp, He. lia.
Qed.

Lemma run_call_counts_witness :
  chats (execute_workflow world_step_fails the_task).2 = 4.
Proof.
  destruct (run_call_counts world_step_fails the_task (callback_returns_scripted _))
    as (Hchats & _).
  rewrite Hchats. vm_compute. reflexivity.
Defined.

Lemma events_app t1 t2 : events (t1 ++ t2) = events t1 ++ events t2.
Proof. apply omap_app. Qed.

Lemma count_finish_step i step res :
  count (is_kind "finish") (step_actions i step res) = 0.
Proof.
  unfold step_actions. destruct (failed res); [vm_compute; reflexivity|].
  destruct (is_valid (validation_of res)); vm_compute; reflexivity.
Qed.

Lemma count_finish_loop w sts : forall k i,
  count (is_kind "finish") (loop_actions w k i sts) = 0.
Proof.
  induction sts as [|step rest IH]; intros k i; cbn [loop_actions].
  - reflexivity.
  - rewrite count_app, IH, count_finish_step. reflexivity.
Qed.

(** X6: when the callback returns at every invocation, the finish event
    is delivered exactly when the synthesis call returns: then it is the
    only finish event and the last event of the run, and it carries the
    response text; when the synthesis call raises there is no finish
    event and the last event is the critical-failure log with the error
    text. *)
Theorem finish_iff_synthesis_returns (w : World) (task : str)
    (Hcb : callback_returns w) :
  let t := trace (execute_workflow w task).2 in
  match synthesis_outcome w task with
  | Returns response =>
      count (is_kind "finish") t = 1
      ∧ last (events t)
        = Some (txt "finish",
                {[ "msg" := VDict {[ "report" := VStr (text response) ]};
                   "role" := VStr (txt "info"); "node" := VNone ]})
  | Raises e =>
      count (is_kind "finish") t = 0
      ∧ last (events t)
        = Some (txt "log",
                {[ "msg" := VStr (txt "Critical System Failure: " ++ exn_str e);
                   "role" := VStr (txt "error"); "node" := VNone ]})
  end.
Proof.
  cbv zeta. rewrite (trace_execute_workflow w task Hcb).
  unfold run_actions. rewrite !count_app, count_finish_loop, !events_app.
  assert (Hp : count (is_kind "finish") (run_prologue w task) = 0)
    by compute_prologue w task.
  rewrite Hp. unfold run_epilogue.
  destruct (synthesis_outcome w task) as [response|e];
    generalize (synthesis_request w task); intros request.
  - split; [vm_compute; reflexivity|].
    rewrite !events_app, !app_assoc. apply last_snoc.
  - split; [vm_compute; reflexivity|].
    rewrite !events_app, !app_assoc. apply last_snoc.
Qed.

Lemma finish_iff_synthesis_returns_witness :
  count (is_kind "finish") (trace (execute_workflow world_synthesis_fails the_task).2)
  = 0.
Proof.
  pose proof (finish_iff_synthesis_returns world_synthesis_fails the_task
                (callback_returns_scripted _)) as H.
  assert (Hout : synthesis_outcome world_synthesis_fails the_task = boom)
    by (vm_compute; reflexivity).
  rewrite Hout in H. exact (proj1 H).
Defined.

(** ** Order of execution and the report context *)

Lemma filter_executing_step i step res :
  filter (fun a => is_activate "executor" a = true) (step_actions i step res)
  = [executing_event step].
Proof.
  unfold step_actions. destruct (failed res); [vm_compute; reflexivity|].
  destruct (is_valid (validation_of res)); vm_compute; reflexivity.
Qed.

Lemma filter_executing_loop w sts : forall k i,
  filter (fun a => is_activate "executor" a = true) (loop_actions w k i sts)
  = executing_event <$> sts.
Proof.
  induction sts as [|step rest IH]; intros k i; cbn [loop_actions].
  - reflexivity.
  - rewrite filter_app, filter_executing_step, IH. reflexivity.
Qed.

Lemma filter_executing_run w task :
  filter (fun a => is_activate "executor" a = true) (run_actions w task)
  = executing_event <$> steps (run_plan w task).
Proof.
  unfold run_actions. rewrite !filter_app, filter_executing_loop.
  assert (Hp : filter (fun a => is_activate "executor" a = true) (run_prologue w task)
               = []) by compute_prologue w task.
  assert (He : filter (fun a => is_activate "executor" a = true) (run_epilogue w task)
               = []) by compute_epilogue w task.
  rewrite Hp, He, app_nil_r. reflexivity.
Qed.

Lemma filter_chat_step i step res :
  filter (fun a => is_chat a = true) (step_actions i step res)
  = [Chat (executor_request step)].
Proof.
  unfold step_actions. destruct (failed res); [vm_compute; reflexivity|].
  destruct (is_valid (validation_of res)); vm_compute; reflexivity.
Qed.

Lemma filter_chat_loop w sts : forall k i,
  filter (fun a => is_chat a = true) (loop_actions w k i sts)
  = (fun step => Chat (executor_request step)) <$> sts.
Proof.
  induction sts as [|step rest IH]; intros k i; cbn [loop_actions].
  - reflexivity.
  - rewrite filter_app, filter_chat_step, IH. reflexivity.
Qed.

(** X12: when the callback returns at every invocation, the steps are
    executed in plan order, each exactly once: the "Executing" events of
    the run are those of the plan's steps in order, and the generation
    calls of the run are the planner's request, one executor request per
    step in plan order, and the synthesis request. *)
Theorem steps_run_in_plan_order (w : World) (task : str) (Hcb : callback_returns w) :
  let t := trace (execute_workflow w task).2 in
  let plan_steps := steps (run_plan w task) in
  filter (fun a => is_activate "executor" a = true) t
  = (fun step => event (txt "activate") (VStr (txt "Executing: " ++ step))
                   (VStr (txt "info")) (VStr (txt "executor"))) <$> plan_steps
  ∧ filter (fun a => is_chat a = true) t
    = [Chat (planner_request task)]
      ++ ((fun step => Chat (executor_request step)) <$> plan_steps)
      ++ [Chat (synthesis_request w task)].
Proof.
  cbv zeta. rewrite (trace_execute_workflow w task Hcb).
  split; [apply filter_executing_run|].
  unfold run_actions. rewrite !filter_app, filter_chat_loop.
  assert (Hp : filter (fun a => is_chat a = true) (run_prologue w task)
               = [Chat (planner_request task)]) by compute_prologue w task.
  assert (He : filter (fun a => is_chat a = true) (run_epilogue w task)
               = [Chat (synthesis_request w task)]) by compute_epilogue w task.
  rewrite Hp, He. reflexivity.
Qed.

Lemma steps_run_in_plan_order_witness :
  filter (fun a => is_activate "executor" a = true)
    (trace (execute_workflow world_step_fails the_task).2)
  = [executing_event (txt "Step A"); executing_event (txt "Step B")].
Proof.
  destruct (steps_run_in_plan_order world_step_fails the_task
              (callback_returns_scripted _)) as [Hexec _].
  rewrite Hexec. vm_compute. reflexivity.
Defined.

(** X8: a planner whose generation call raises does not stop the run:
    when the callback returns at every invocation, the run executes the
    three fallback steps in order, records 3 as [total_steps], goes on to
    synthesis and returns. *)
Theorem planning_failure_is_not_fatal (w : World) (task : str) (e : exn)
    (Hcb : callback_returns w)
    (Hfails : co_chat w 0 (planner_request task) = Raises e) :
  let out := execute_workflow w task in
  out.1 = Ok tt
  ∧ trace out.2
    = run_prologue w task ++ loop_actions w 1 0 fallback_steps ++ run_epilogue w task
  ∧ filter (fun a => is_activate "executor" a = true) (trace out.2)
    = executing_event
      <$> [txt "Research the topic overview"; txt "Analyze key trends and data";
           txt "Synthesize findings"]
  ∧ total_steps (state out.2) = 3
  ∧ Chat (synthesis_request w task) ∈ trace out.2.
Proof.
  cbv zeta.
  assert (Hplan : steps (run_plan w task) = fallback_steps).
  { unfold run_plan. rewrite Hfails. reflexivity. }
  pose proof (trace_execute_workflow w task Hcb) as Htrace.
  split; [rewrite (execute_workflow_spec w Hcb); reflexivity|].
  split; [rewrite Htrace; unfold run_actions; rewrite Hplan; reflexivity|].
  split; [rewrite Htrace, filter_executing_run, Hplan; reflexivity|].
  split.
  - rewrite (execute_workflow_spec w Hcb). cbn [snd].
    unfold run_actions. rewrite !perform_all_app.
    assert (He : forall r, total_steps (state (perform_all (run_epilogue w task) r))
                           = total_steps (state r)).
    { intros r. unfold run_epilogue.
      destruct (synthesis_outcome w task); reflexivity. }
    rewrite He, total_steps_loop. simpl. rewrite Hplan. reflexivity.
  - rewrite Htrace. unfold run_actions, run_epilogue.
    rewrite !elem_of_app. right. right. left. right. left.
Qed.

Lemma planning_failure_is_not_fatal_witness :
  total_steps (state (execute_workflow (scripted_world [boom; cited sixty]) the_task).2)
  = 3.
Proof.
  assert (Hfails : co_chat (scripted_world [boom; cited sixty]) 0
                     (planner_request the_task)
                   = Raises (Exception "RuntimeError" (txt "timeout")))
    by reflexivity.
  destruct (planning_failure_is_not_fatal (scripted_world [boom; cited sixty])
              the_task _ (callback_returns_scripted _) Hfails)
    as (_ & _ & _ & Htotal & _).
  exact Htotal.
Defined.

(** X9: when the planner's response has no line with visible text, the
    plan is empty: with a callback that always returns, the run executes
    no step, makes only the planner's and the synthesis call, and asks for
    a report over an empty context. *)
Theorem empty_plan_goes_to_synthesis (w : World) (task : str)
    (response : ChatResponse)
    (Hcb : callback_returns w)
    (Hreturns : co_chat w 0 (planner_request task) = Returns response)
    (Hblank : parse_steps (text response) = []) :
  let run := (execute_workflow w task).2 in
  trace run = run_prologue w task ++ run_epilogue w task
  ∧ chats run = 2
  ∧ total_steps (state run) = 0
  ∧ count (is_activate "executor") (trace run) = 0
  ∧ synthesis_request w task = final_request task []
  ∧ Chat (final_request task []) ∈ trace run.
Proof.
  cbv zeta.
  assert (Hplan : steps (run_plan w task) = []).
  { unfold run_plan. rewrite Hreturns. exact Hblank. }
  assert (Hreq : synthesis_request w task = final_request task []).
  { unfold synthesis_request. rewrite Hplan. reflexivity. }
  pose proof (trace_execute_workflow w task Hcb) as Htrace.
  assert (Hacts : run_actions w task = run_prologue w task ++ run_epilogue w task).
  { unfold run_actions. rewrite Hplan. reflexivity. }
  rewrite Htrace, Hacts. split; [reflexivity|].
  rewrite (execute_workflow_spec w Hcb), Hacts. cbn [snd].
  assert (He : forall r,
    chats (perform_all (run_epilogue w task) r) = S (chats r)
    ∧ total_steps (state (perform_all (run_epilogue w task) r))
      = total_steps (state r)).
  { intros r. unfold run_epilogue.
    destruct (synthesis_outcome w task); split; reflexivity. }
  rewrite perform_all_app.
  destruct (He (perform_all (run_prologue w task) (initial_run w task))) as [-> ->].
  split; [reflexivity|]. split; [simpl; rewrite Hplan; reflexivity|].
  split.
  - rewrite count_app, count_prologue_executor, count_epilogue_executor. reflexivity.
  - split; [exact Hreq|]. rewrite <- Hreq. unfold run_epilogue.
    rewrite !elem_of_app. right. left. right. left.
Qed.

Lemma empty_plan_goes_to_synthesis_witness :
  chats (execute_workflow
           (scripted_world [uncited (txt "  " ++ [newline]); uncited (txt "REPORT")])
           the_task).2 = 2.
Proof.
  assert (Hblank : parse_steps (txt "  " ++ [newline]) = [])
    by (vm_compute; reflexivity).
  destruct (empty_plan_goes_to_synthesis
              (scripted_world [uncited (txt "  " ++ [newline]); uncited (txt "REPORT")])
              the_task (mk_ChatResponse (txt "  " ++ [newline]) None)
              (callback_returns_scripted _) eq_refl Hblank)
    as (_ & Hchats & _).
  exact Hchats.
Defined.

Lemma length_loop_report w sts : forall k i,
  length (loop_report w k sts)
  = count (is_activate "decision") (loop_actions w k i sts).
Proof.
  induction sts as [|step rest IH]; intros k i; cbn [loop_report loop_actions].
  - reflexivity.
  - rewrite length_app, count_app, count_decision_step, (IH (S k) (S i)).
    unfold step_report. destruct (failed _); reflexivity.
Qed.

Lemma loop_report_sections w sts : forall k,
  Forall (fun section =>
            exists step output,
              step ∈ sts
              ∧ section = txt "### " ++ step ++ [newline] ++ output ++ [newline])
    (loop_report w k sts).
Proof.
  induction sts as [|step rest IH]; intros k; cbn [loop_report]; [constructor|].
  apply Forall_app. split.
  - unfold step_report. destruct (failed _); constructor; [|constructor].
    exists step, (sr_output (step_result w k step)). split; [left | reflexivity].
  - eapply Forall_impl; [apply IH|]. intros section (s & o & Hin & ->).
    exists s, o. split; [right; exact Hin | reflexivity].
Qed.

(** X10: when the callback returns at every invocation, the synthesis
    request is built from the sections joined by line breaks, one section
    per quality-gate event of the run, each made of the heading of one of
    the plan's steps and an output. *)
Theorem report_has_one_section_per_gate (w : World) (task : str)
    (Hcb : callback_returns w) :
  let t := trace (execute_workflow w task).2 in
  exists sections,
    Chat (mk_ChatRequest
            (txt "Based on the following research segments about '" ++ task
             ++ txt "', write a cohesive, professional markdown report:"
             ++ [newline; newline] ++ join [newline] sections)
            (Some (txt "command-r")) 0.3 None) ∈ t
    ∧ length sections = count (is_activate "decision") t
    ∧ Forall (fun section =>
                exists step output,
                  step ∈ steps (run_plan w task)
                  ∧ section = txt "### " ++ step ++ [newline] ++ output ++ [newline])
        sections.
Proof.
  cbv zeta. exists (loop_report w 1 (steps (run_plan w task))).
  rewrite (trace_execute_workflow w task Hcb). split; [|split].
  - unfold run_actions, run_epilogue. rewrite !elem_of_app.
    right. right. left. right. left.
  - unfold run_actions. rewrite !count_app.
    rewrite count_prologue_decision, count_epilogue_decision.
    rewrite (length_loop_report w _ 1 0). lia.
  - apply loop_report_sections.
Qed.

Lemma report_has_one_section_per_gate_witness :
  exists sections : list str,
    length sections
    = count (is_activate "decision")
        (trace (execute_workflow world_step_fails the_task).2)
    ∧ length sections = 1.
Proof.
  destruct (report_has_one_section_per_gate world_step_fails the_task
              (callback_returns_scripted _)) as (sections & _ & Hlen & _).
  exists sections. split; [exact Hlen|]. rewrite Hlen. vm_compute. reflexivity.
Defined.

(** ** The length of the execution log *)

Lemma log_events_snoc calls c st :
  log_events (calls ++ [c]) st
  = log_event (log_events calls st) (lc_now c) (lc_type c) (lc_message c) (lc_data c).
Proof. unfold log_events. rewrite fold_left_app. reflexivity. Qed.

Lemma log_length_succ n :
  (if decide (500 ≤ log_length n) then 401 else S (log_length n))
  = log_length (S n).
Proof.
  unfold log_length.
  destruct (decide (n ≤ 500)) as [Hn|Hn], (decide (S n ≤ 500)) as [Hs|Hs];
    try lia.
  - destruct (decide (500 ≤ n)); lia.
  - assert (n = 500) as -> by lia. reflexivity.
  - pose proof (Nat.div_mod_eq (n - 501) 100) as H1.
    pose proof (Nat.div_mod_eq (S n - 501) 100) as H2.
    pose proof (Nat.mod_upper_bound (n - 501) 100) as H3.
    pose proof (Nat.mod_upper_bound (S n - 501) 100) as H4.
    destruct (decide (500 ≤ 401 + (n - 501) mod 100)); lia.
Qed.

Lemma suffix_is_drop {A} (l1 l2 : list A) :
  l1 `suffix_of` l2 -> l1 = drop (length l2 - length l1) l2.
Proof.
  intros [k ->]. rewrite length_app.
  rewrite drop_app_length'; [reflexivity | lia].
Qed.

(** X13: after n calls of [log_event] on a fresh state the log holds
    exactly the most recent entries, in call order, and their number is n
    up to 500 calls and then cycles from 401 up to 500: 401 after call
    501, 500 after call 600, 401 again after call 601. *)
Theorem log_holds_most_recent (calls : list log_call) (id task : str)
    (s0 : WorkflowStatus) :
  let n := length calls in
  let log := execution_log (log_events calls (new_WorkflowState id task s0)) in
  length log = (if decide (n ≤ 500) then n else 401 + (n - 501) mod 100)
  ∧ log = drop (n - length log) (log_call_entry <$> calls)
  ∧ (401 ≤ n -> 401 ≤ length log).
Proof.
  cbv zeta.
  assert (Hlen : length (execution_log
                           (log_events calls (new_WorkflowState id task s0)))
                 = log_length (length calls)).
  { induction calls as [|c calls IH] using rev_ind; [reflexivity|].
    rewrite log_events_snoc, length_log_event, IH, length_app. simpl.
    rewrite Nat.add_1_r. apply log_length_succ. }
  split; [exact Hlen|]. split.
  - pose proof (log_events_suffix calls (new_WorkflowState id task s0) []
                  (suffix_nil _)) as Hsuf.
    simpl in Hsuf. apply suffix_is_drop in Hsuf.
    rewrite length_fmap in Hsuf. exact Hsuf.
  - intros Hn. rewrite Hlen. unfold log_length.
    destruct (decide (length calls ≤ 500)); lia.
Qed.

Lemma log_holds_most_recent_witness :
  401 ≤ length (execution_log
                  (log_events (replicate 501 (mk_log_call clock_reading [] [] None))
                     (new_WorkflowState [] [] PENDING))).
Proof.
  destruct (log_holds_most_recent
              (replicate 501 (mk_log_call clock_reading [] [] None)) [] [] PENDING)
    as (_ & _ & Hmin).
  apply Hmin. rewrite length_replicate. lia.
Defined.

(** ** The streaming endpoint *)

Lemma gbind_run {A B} (m : G A) (k : A -> G B) (s : Stream) :
  (m ≫= k) s = match m s with
               | (Ok a, s') => k a s'
               | (Raise e, s') => (Raise e, s')
               end.
Proof. reflexivity. Qed.

Lemma yield_run frame s :
  yield_ frame s = (Ok tt, mk_Stream (g_chats s) (g_items s ++ [Frame frame])).
Proof. reflexivity. Qed.

Lemma within_planner w task s :
  within (agent_planner w task) s
  = (Ok (planner_result (co_chat w (g_chats s) (planner_request task))),
     mk_Stream (S (g_chats s))
       (g_items s ++ [Did (Invoke "planner" (VStr task));
                      Did (Chat (planner_request task))])).
Proof. unfold within. rewrite agent_planner_spec. reflexivity. Qed.

Lemma within_executor w step s :
  within (agent_executor w step) s
  = (Ok (step_result w (g_chats s) step),
     mk_Stream (S (g_chats s))
       (g_items s ++ [Did (Invoke "executor" (VStr step));
                      Did (Chat (executor_request step))])).
Proof. unfold within. rewrite agent_executor_spec. reflexivity. Qed.

Lemma within_validator res s :
  within (agent_validator (StepResult_dict res)) s
  = (Ok (validation_of res),
     mk_Stream (g_chats s)
       (g_items s ++ [Did (Invoke "validator" (VDict (StepResult_dict res)))])).
Proof. unfold within. rewrite agent_validator_spec. reflexivity. Qed.

Lemma within_sleep seconds s :
  within (sleep seconds) s
  = (Ok tt, mk_Stream (g_chats s) (g_items s ++ [Did (Sleep seconds)])).
Proof. reflexivity. Qed.

Lemma within_chat w request s :
  within (chat w request) s
  = (match co_chat w (g_chats s) request with
     | Returns response => Ok response
     | Raises e => Raise e
     end,
     mk_Stream (S (g_chats s)) (g_items s ++ [Did (Chat request)])).
Proof.
  unfold within, chat. simpl.
  destruct (co_chat w (g_chats s) request); reflexivity.
Qed.

Lemma stream_body_spec w i step data s :
  stream_body w i step data s
  = (Ok (data ++ section_entry i step (step_result w (g_chats s) step)),
     mk_Stream (S (g_chats s))
       (g_items s ++ stream_step_items step (step_result w (g_chats s) step))).
Proof.
  unfold stream_body. rewrite gbind_run, yield_run.
  rewrite gbind_run, within_executor. cbn [g_chats g_items].
  set (res := step_result w (g_chats s) step).
  rewrite gbind_run, yield_run. rewrite gbind_run, within_validator.
  rewrite gbind_run, yield_run. rewrite gbind_run.
  unfold stream_step_items, success_frame, warning_frame.
  destruct (is_valid (validation_of res)); rewrite yield_run;
    rewrite gbind_run, within_sleep; cbn [g_chats g_items];
    rewrite <- !app_assoc; reflexivity.
Qed.

Lemma stream_steps_spec w sts : forall i data s,
  stream_steps w i sts data s
  = (Ok (data ++ stream_data w (g_chats s) i sts),
     mk_Stream (g_chats s + length sts)
       (g_items s ++ stream_loop_items w (g_chats s) sts)).
Proof.
  induction sts as [|step rest IH]; intros i data s;
    cbn [stream_steps stream_data stream_loop_items length].
  - rewrite !app_nil_r, Nat.add_0_r. destruct s; reflexivity.
  - rewrite gbind_run, stream_body_spec, IH. cbn [g_chats g_items].
    rewrite <- !app_assoc, Nat.add_succ_r. reflexivity.
Qed.

Lemma generate_spec w task :
  generate w task (mk_Stream 0 [])
  = (match stream_outcome w task with
     | Returns _ => Ok tt
     | Raises e => Raise e
     end,
     mk_Stream (length (steps (run_plan w task)) + 2) (stream_items w task)).
Proof.
  unfold generate. rewrite gbind_run, yield_run. rewrite gbind_run, yield_run.
  rewrite gbind_run, within_planner. cbn [g_chats g_items].
  fold (run_plan w task).
  rewrite gbind_run, yield_run. rewrite gbind_run, stream_steps_spec.
  cbn [g_chats g_items]. rewrite gbind_run, yield_run.
  rewrite gbind_run, within_chat. cbn [g_chats g_items].
  unfold stream_items, stream_prologue, stream_epilogue, stream_outcome,
    stream_request.
  simpl ([] ++ _). simpl (1 + _).
  replace (length (steps (run_plan w task)) + 2)
    with (S (S (length (steps (run_plan w task))))) by lia.
  destruct (co_chat w (S (length (steps (run_plan w task)))) _) as [response|e].
  - rewrite yield_run. cbn [g_chats g_items]. rewrite <- !app_assoc. reflexivity.
  - rewrite <- !app_assoc. reflexivity.
Qed.

Lemma frames_app l1 l2 : frames (l1 ++ l2) = frames l1 ++ frames l2.
Proof. apply omap_app. Qed.

Lemma deeds_app l1 l2 : deeds (l1 ++ l2) = deeds l1 ++ deeds l2.
Proof. apply omap_app. Qed.

Lemma length_frames_loop w sts : forall k,
  length (frames (stream_loop_items w k sts)) = 4 * length sts.
Proof.
  induction sts as [|step rest IH]; intros k; cbn [stream_loop_items length].
  - reflexivity.
  - rewrite frames_app, length_app, IH. simpl. lia.
Qed.

Lemma length_frames_prologue w task : length (frames (stream_prologue w task)) = 3.
Proof. reflexivity. Qed.

Lemma frames_stream_epilogue w task :
  frames (stream_epilogue w task)
  = activate_frame (txt "end") (txt "Generating Final Report...")
    :: match stream_outcome w task with
       | Returns response =>
           [sse_frame [(txt "type", txt "finish"); (txt "report", text response)]]
       | Raises _ => []
       end.
Proof. unfold stream_epilogue. destruct (stream_outcome w task); reflexivity. Qed.

Lemma stream_workflow_spec w task_arg :
  let task := default (txt "Search about KSA Vision 2030") task_arg in
  stream_workflow w task_arg
  = (match stream_outcome w task with
     | Returns _ => Ok tt
     | Raises e => Raise e
     end,
     mk_Stream (length (steps (run_plan w task)) + 2) (stream_items w task)).
Proof. intros task. unfold stream_workflow. fold task. exact (generate_spec w task). Qed.

(** X14: the generator of the streaming endpoint has no error handling.
    For a plan of N steps it makes N + 2 generation calls; when the final
    call returns it yields 5 + 4 N frames, the last one the finish frame
    with the report, and ends; when the final call raises, the exception
    leaves the generator after 4 + 4 N frames and no finish frame is
    sent. *)
Theorem stream_frames (w : World) (task_arg : option str) :
  let task := default (txt "Search about KSA Vision 2030") task_arg in
  let n := length (steps (run_plan w task)) in
  let out := stream_workflow w task_arg in
  g_chats out.2 = n + 2
  ∧ match co_chat w (S n) (stream_request w task) with
    | Returns response =>
        out.1 = Ok tt
        ∧ length (frames (g_items out.2)) = 5 + 4 * n
        ∧ last (frames (g_items out.2))
          = Some (sse_frame [(txt "type", txt "finish");
                             (txt "report", text response)])
    | Raises e =>
        out.1 = Raise e
        ∧ length (frames (g_items out.2)) = 4 + 4 * n
        ∧ last (frames (g_items out.2))
          = Some (activate_frame (txt "end") (txt "Generating Final Report..."))
    end.
Proof.
  cbv zeta. rewrite stream_workflow_spec. cbv zeta. cbn [fst snd g_chats g_items].
  split; [reflexivity|].
  set (task := default (txt "Search about KSA Vision 2030") task_arg).
  unfold stream_items. rewrite !frames_app, !length_app, length_frames_loop.
  rewrite frames_stream_epilogue, length_frames_prologue.
  unfold stream_outcome.
  destruct (co_chat w (S (length (steps (run_plan w task)))) (stream_request w task))
    as [response|e].
  - split; [reflexivity|]. split; [cbn [length]; lia|].
    match goal with
    | |- last (?p ++ ?l ++ [?a; ?b]) = _ =>
        change (p ++ l ++ [a; b]) with (p ++ l ++ [a] ++ [b])
    end.
    rewrite !app_assoc. apply last_snoc.
  - split; [reflexivity|]. split; [cbn [length]; lia|].
    rewrite !app_assoc. apply last_snoc.
Qed.

Lemma count_validator_stream_loop w sts : forall k,
  count is_validator_call (deeds (stream_loop_items w k sts)) = length sts.
Proof.
  induction sts as [|step rest IH]; intros k; cbn [stream_loop_items length].
  - reflexivity.
  - rewrite deeds_app, count_app, IH. reflexivity.
Qed.

Lemma stream_data_at w sts : forall k i j step,
  sts !! j = Some step ->
  stream_data w k i sts
  = stream_data w k i (take j sts)
    ++ section_entry (i + j) step (step_result w (k + j) step)
    ++ stream_data w (S (k + j)) (S (i + j)) (drop (S j) sts).
Proof.
  induction sts as [|s rest IH]; intros k i j step Hj; [discriminate Hj|].
  destruct j as [|j].
  - injection Hj as ->. rewrite !Nat.add_0_r. reflexivity.
  - cbn [take drop stream_data]. rewrite (IH (S k) (S i) j step Hj).
    rewrite !Nat.add_succ_r, <- app_assoc. reflexivity.
Qed.

Lemma stream_loop_items_at w sts : forall k j step,
  sts !! j = Some step ->
  stream_loop_items w k sts
  = stream_loop_items w k (take j sts)
    ++ stream_step_items step (step_result w (k + j) step)
    ++ stream_loop_items w (S (k + j)) (drop (S j) sts).
Proof.
  induction sts as [|s rest IH]; intros k j step Hj; [discriminate Hj|].
  destruct j as [|j].
  - injection Hj as ->. rewrite !Nat.add_0_r. reflexivity.
  - cbn [take drop stream_loop_items]. rewrite (IH (S k) j step Hj).
    rewrite !Nat.add_succ_r, <- app_assoc. reflexivity.
Qed.

(** X15: unlike [execute_workflow], the generator of the streaming
    endpoint validates every step and keeps every output: the validator
    is invoked once per step, a step whose executor result is failed is
    validated too and reported with the low-confidence warning frame, and
    the final request is built from one section per step, failed or not,
    in plan order. *)
Theorem stream_validates_every_step (w : World) (task_arg : option str)
    (j : nat) (step : str) :
  let task := default (txt "Search about KSA Vision 2030") task_arg in
  let plan_steps := steps (run_plan w task) in
  let items := g_items (stream_workflow w task_arg).2 in
  let res := step_result w (S j) step in
  count is_validator_call (deeds items) = length plan_steps
  ∧ (plan_steps !! j = Some step ->
     exists data_before data_after,
       Did (Chat (analyst_request task
                    (data_before
                     ++ ([newline] ++ txt "Section " ++ str_of_nat (j + 1) ++ txt ": "
                         ++ step ++ [newline] ++ sr_output res ++ [newline])
                     ++ data_after))) ∈ items
       ∧ Did (Invoke "validator" (VDict (StepResult_dict res))) ∈ items
       ∧ (sr_status res = txt "failed" -> Frame warning_frame ∈ items)).
Proof.
  cbv zeta. rewrite stream_workflow_spec. cbv zeta. cbn [snd g_items].
  set (task := default (txt "Search about KSA Vision 2030") task_arg).
  split.
  - unfold stream_items. rewrite !deeds_app, !count_app, count_validator_stream_loop.
    assert (Hp : count is_validator_call (deeds (stream_prologue w task)) = 0).
    { unfold stream_prologue. generalize (planner_request task). intros request.
      vm_compute. reflexivity. }
    assert (He : count is_validator_call (deeds (stream_epilogue w task)) = 0).
    { unfold stream_epilogue. destruct (stream_outcome w task);
        generalize (stream_request w task); intros request; vm_compute; reflexivity. }
    rewrite Hp, He. lia.
  - intros Hj.
    exists (stream_data w 1 0 (take j (steps (run_plan w task)))).
    exists (stream_data w (S (S j)) (S j) (drop (S j) (steps (run_plan w task)))).
    pose proof (stream_data_at w _ 1 0 j step Hj) as Hdata.
    pose proof (stream_loop_items_at w _ 1 j step Hj) as Hitems.
    change (1 + j) with (S j) in Hdata, Hitems. change (0 + j) with j in Hdata.
    split; [|split].
    + match goal with
      | |- Did (Chat (analyst_request task ?data)) ∈ _ =>
          replace data with (stream_data w 1 0 (steps (run_plan w task)))
            by exact Hdata
      end.
      unfold stream_items, stream_epilogue, stream_request.
      rewrite !elem_of_app. right. right. left. right. left.
    + unfold stream_items. rewrite Hitems, !elem_of_app.
      right. left. right. left. unfold stream_step_items.
      do 4 right. left.
    + intros Hfailed. unfold stream_items. rewrite Hitems, !elem_of_app.
      right. left. right. left. unfold stream_step_items.
      assert (Hv : is_valid (validation_of (step_result w (S j) step)) = false).
      { unfold validation_of.
        assert (Hc : sr_confidence (step_result w (S j) step) = 0%float).
        { unfold step_result, executor_result in *.
          destruct (co_chat w (S j) (executor_request step)) as [response|e];
            [|reflexivity].
          destruct (citations response) as [[|c cs]|]; simpl in Hfailed;
            vm_compute in Hfailed; discriminate Hfailed. }
        rewrite Hc. simpl. apply andb_false_r. }
      rewrite Hv. do 6 right. left.
Qed.

Lemma stream_validates_every_step_witness :
  Frame warning_frame ∈ g_items (stream_workflow world_step_fails (Some the_task)).2.
Proof.
  destruct (stream_validates_every_step world_step_fails (Some the_task) 0
              (txt "Step A")) as [_ Hstep].
  destruct Hstep as (before & after & _ & _ & Hwarn);
    [vm_compute; reflexivity|].
  apply Hwarn. vm_compute. reflexivity.
Defined.

(** ** Frames on the wire *)

Lemma hex_digit_printable d : printable (hex_digit d).
Proof.
  unfold hex_digit. destruct (hex_digits !! N.to_nat d) as [c|] eqn:Hc; simpl.
  - apply list_elem_of_lookup_2 in Hc.
    assert (Hall : Forall printable hex_digits) by compute_done.
    rewrite Forall_forall in Hall. exact (Hall c Hc).
  - unfold printable. lia.
Qed.

Lemma unicode_escape_printable n : Forall printable (unicode_escape n).
Proof.
  unfold unicode_escape, hex4.
  repeat (constructor; [first [apply hex_digit_printable | unfold printable; lia]|]).
  constructor.
Qed.

Lemma json_escape_printable c : Forall printable (json_escape c).
Proof.
  unfold json_escape.
  repeat match goal with
         | |- Forall printable (if (c =? ?k)%N then _ else _) =>
             destruct (c =? k)%N; [compute_done|]
         end.
  destruct ((32 <=? c) && (c <=? 126))%N eqn:Hc.
  - apply andb_true_iff in Hc. destruct Hc as [H1 H2].
    apply N.leb_le in H1, H2. constructor; [split; assumption | constructor].
  - destruct (c <? 65536)%N; [apply unicode_escape_printable|].
    apply Forall_app. split; apply unicode_escape_printable.
Qed.

Lemma json_string_printable s : Forall printable (json_string s).
Proof.
  unfold json_string. apply Forall_app. split; [compute_done|].
  apply Forall_app. split; [|compute_done].
  induction s as [|c s IH]; [constructor|].
  change ((c :: s) ≫= json_escape) with (json_escape c ++ (s ≫= json_escape)).
  apply Forall_app. split; [apply json_escape_printable | exact IH].
Qed.

Lemma join_printable sep parts :
  Forall printable sep -> Forall (Forall printable) parts ->
  Forall printable (join sep parts).
Proof.
  intros Hsep Hparts. induction Hparts as [|p ps Hp Hps IH]; [constructor|].
  destruct ps as [|q ps]; [exact Hp|].
  change (join sep (p :: q :: ps)) with (p ++ sep ++ join sep (q :: ps)).
  repeat (apply Forall_app; split); assumption.
Qed.

Lemma json_dumps_printable d : Forall printable (json_dumps d).
Proof.
  unfold json_dumps. apply Forall_app. split; [compute_done|].
  apply Forall_app. split; [|compute_done].
  apply join_printable; [compute_done|].
  apply Forall_fmap, Forall_forall. intros [k v] _. unfold compose. cbn [fst snd].
  apply Forall_app. split; [apply json_string_printable|].
  apply Forall_app. split; [compute_done | apply json_string_printable].
Qed.

Lemma stream_frames_encoded w task :
  Forall (fun frame => exists d, frame = sse_frame d) (frames (stream_items w task)).
Proof.
  unfold stream_items. rewrite !frames_app, frames_stream_epilogue.
  repeat (apply Forall_app; split).
  - unfold stream_prologue, activate_frame, log_frame.
    repeat (constructor; [eexists; reflexivity|]). constructor.
  - generalize 1. induction (steps (run_plan w task)) as [|step rest IH];
      intros k; cbn [stream_loop_items]; [constructor|].
    rewrite frames_app. apply Forall_app. split; [|apply IH].
    unfold stream_step_items, success_frame, warning_frame, activate_frame,
      log_frame.
    destruct (is_valid _);
      repeat (constructor; [eexists; reflexivity|]); constructor.
  - unfold activate_frame. constructor; [eexists; reflexivity|].
    destruct (stream_outcome w task); repeat constructor. eexists; reflexivity.
Qed.

(** X16: every frame the generator yields is one event of a text stream:
    the prefix "data: ", then one line of printable ASCII characters, then
    an empty line.  Line breaks, quotes and characters outside ASCII in
    the task, in a step or in a generated text are escaped by the JSON
    encoding and cannot break a frame. *)
Theorem frames_are_single_lines (w : World) (task_arg : option str) (frame : str)
    (Hframe : frame ∈ frames (g_items (stream_workflow w task_arg).2)) :
  exists body,
    frame = txt "data: " ++ body ++ [newline; newline]
    ∧ Forall (fun c => (32 ≤ c ≤ 126)%N) body
    ∧ newline ∉ body.
Proof.
  rewrite stream_workflow_spec in Hframe. cbv zeta in Hframe. cbn [snd g_items] in Hframe.
  pose proof (stream_frames_encoded w
                (default (txt "Search about KSA Vision 2030") task_arg)) as Hall.
  rewrite Forall_forall in Hall. destruct (Hall frame Hframe) as [d ->].
  exists (json_dumps d). split; [reflexivity|].
  pose proof (json_dumps_printable d) as Hp. split; [exact Hp|].
  intros Hin. rewrite Forall_forall in Hp. specialize (Hp _ Hin).
  unfold printable, newline in Hp. lia.
Qed.

Lemma frames_are_single_lines_witness :
  exists body,
    sse_frame [(txt "type", txt "finish"); (txt "report", txt "REPORT")]
    = txt "data: " ++ body ++ [newline; newline]
    ∧ newline ∉ body.
Proof.
  assert (Hframe : sse_frame [(txt "type", txt "finish"); (txt "report", txt "REPORT")]
                   ∈ frames (g_items (stream_workflow world_ok (Some the_task)).2)).
  { apply list_elem_of_In. vm_compute. do 12 right. left. reflexivity. }
  destruct (frames_are_single_lines world_ok (Some the_task) _ Hframe)
    as (body & Heq & _ & Hnl).
  exists body. split; [exact Heq | exact Hnl].
Defined.

(** A report with line breaks and quotes still travels as one line. *)
Example finish_frame_escapes :
  sse_frame [(txt "type", txt "finish");
             (txt "report", txt "# Title" ++ [newline] ++ txt "a " ++ [quote]
                            ++ txt "b" ++ [quote; 233%N])]
  = txt "data: {" ++ [quote] ++ txt "type" ++ [quote] ++ txt ": " ++ [quote]
    ++ txt "finish" ++ [quote] ++ txt ", " ++ [quote] ++ txt "report" ++ [quote]
    ++ txt ": " ++ [quote] ++ txt "# Title\na \" ++ [quote] ++ txt "b\"
    ++ [quote] ++ txt "\u00e9" ++ [quote] ++ txt "}" ++ [newline; newline].
Proof. vm_compute. reflexivity. Qed.

(** ** The two entry points *)

Lemma filter_chat_stream_loop w sts : forall k,
  filter (fun a => is_chat a = true) (deeds (stream_loop_items w k sts))
  = (fun step => Chat (executor_request step)) <$> sts.
Proof.
  induction sts as [|step rest IH]; intros k; cbn [stream_loop_items].
  - reflexivity.
  - rewrite deeds_app, filter_app, IH. reflexivity.
Qed.

(** X17: the streaming endpoint and [execute_workflow] ask the client
    for the same plan and the same steps, in the same order; they differ
    in the last request, which the endpoint sends to the model
    "command-a-03-2025" and [execute_workflow] to "command-r". *)
Theorem entry_points_make_same_requests (w : World) (task : str)
    (Hcb : callback_returns w) :
  let plan_steps := steps (run_plan w task) in
  let shared :=
    [Chat (planner_request task)]
    ++ ((fun step => Chat (executor_request step)) <$> plan_steps) in
  filter (fun a => is_chat a = true) (trace (execute_workflow w task).2)
  = shared ++ [Chat (synthesis_request w task)]
  ∧ filter (fun a => is_chat a = true)
      (deeds (g_items (stream_workflow w (Some task)).2))
    = shared ++ [Chat (stream_request w task)]
  ∧ model (synthesis_request w task) = Some (txt "command-r")
  ∧ model (stream_request w task) = Some (txt "command-a-03-2025").
Proof.
  cbv zeta. split; [|split; [|split; reflexivity]].
  - rewrite (trace_execute_workflow w task Hcb).
    unfold run_actions. rewrite !filter_app, filter_chat_loop.
    assert (Hp : filter (fun a => is_chat a = true) (run_prologue w task)
                 = [Chat (planner_request task)]) by compute_prologue w task.
    assert (He : filter (fun a => is_chat a = true) (run_epilogue w task)
                 = [Chat (synthesis_request w task)]) by compute_epilogue w task.
    rewrite Hp, He, <- app_assoc. reflexivity.
  - rewrite stream_workflow_spec. cbv zeta.
    change (default (txt "Search about KSA Vision 2030") (Some task)) with task.
    cbn [snd g_items]. unfold stream_items. rewrite !deeds_app, !filter_app, filter_chat_stream_loop.
    assert (Hp : filter (fun a => is_chat a = true) (deeds (stream_prologue w task))
                 = [Chat (planner_request task)]) by reflexivity.
    assert (He : filter (fun a => is_chat a = true) (deeds (stream_epilogue w task))
                 = [Chat (stream_request w task)]).
    { unfold stream_epilogue. destruct (stream_outcome w task); reflexivity. }
    rewrite Hp, He, <- app_assoc. reflexivity.
Qed.

Lemma entry_points_make_same_requests_witness :
  filter (fun a => is_chat a = true)
    (deeds (g_items (stream_workflow world_ok (Some the_task)).2))
  = [Chat (planner_request the_task); Chat (executor_request (txt "Step A"));
     Chat (executor_request (txt "Step B")); Chat (stream_request world_ok the_task)].
Proof.
  destruct (entry_points_make_same_requests world_ok the_task
              (callback_returns_scripted _)) as (_ & Hstream & _).
  rewrite Hstream. vm_compute. reflexivity.
Defined.
